(** * buyzar: order placement and the admin gate of [main.py]

    A shallow embedding of the non-presentation parts of [src/main.py]:
    the three JSON documents and their loaders and savers, the password
    hash, [BazaarApp.place_order], [BazaarApp.open_admin_login] and
    [BazaarApp._admin_change_password], followed by the properties the
    specification states about them.

    Conventions.
    - A Python [str] is held as the bytes of its UTF-8 encoding (a Rocq
      [string]), so [pw.encode()] is the list of its bytes, [not s] is
      [s = ""] and [==] on [str] is equality of strings.
    - A Python [int] is a [Z].
    - [Optional[str]] (what [simpledialog.askstring] returns) is
      [option string]; [None] is a cancelled dialog.
    - A JSON object read into a [dict] with string values is a
      [gmap string string]; the cart, a [dict] whose iteration order
      decides the order of the items of a record, is an association list. *)

From Stdlib Require Import ZArith List String Ascii DecimalString Lia.
From stdpp Require Import gmap strings list.
Import ListNotations.

Local Open Scope Z_scope.

(** ** [hashlib.sha256]: FIPS 180-4, on 32-bit words held in [Z] *)

Module SHA256.

Definition mask32 : Z := 0xffffffff.
Definition add32 (x y : Z) : Z := (x + y) mod 2 ^ 32.
Definition shr (n x : Z) : Z := Z.shiftr x n.
Definition rotr (n x : Z) : Z :=
  Z.lor (Z.shiftr x n) (Z.land (Z.shiftl x (32 - n)) mask32).
Definition not32 (x : Z) : Z := Z.lxor x mask32.

Definition Ch (x y z : Z) : Z := Z.lxor (Z.land x y) (Z.land (not32 x) z).
Definition Maj (x y z : Z) : Z :=
  Z.lxor (Z.lxor (Z.land x y) (Z.land x z)) (Z.land y z).
Definition Sigma0 (x : Z) : Z := Z.lxor (Z.lxor (rotr 2 x) (rotr 13 x)) (rotr 22 x).
Definition Sigma1 (x : Z) : Z := Z.lxor (Z.lxor (rotr 6 x) (rotr 11 x)) (rotr 25 x).
Definition sigma0 (x : Z) : Z := Z.lxor (Z.lxor (rotr 7 x) (rotr 18 x)) (shr 3 x).
Definition sigma1 (x : Z) : Z := Z.lxor (Z.lxor (rotr 17 x) (rotr 19 x)) (shr 10 x).

(** The first sixty-four primes. *)
Definition primes : list Z :=
  [ 2; 3; 5; 7; 11; 13; 17; 19; 23; 29; 31; 37; 41; 43; 47; 53;
    59; 61; 67; 71; 73; 79; 83; 89; 97; 101; 103; 107; 109; 113; 127; 131;
    137; 139; 149; 151; 157; 163; 167; 173; 179; 181; 191; 193; 197; 199; 211; 223;
    227; 229; 233; 239; 241; 251; 257; 263; 269; 271; 277; 281; 283; 293; 307; 311 ].

(** Integer cube root, one bit at a time from bit [bits - 1] down. *)
Fixpoint cbrt_bits (bits : nat) (n r : Z) : Z :=
  match bits with
  | O => r
  | S b =>
      let c := r + 2 ^ Z.of_nat b in
      if c * c * c <=? n then cbrt_bits b n c else cbrt_bits b n r
  end.

Definition cbrt (n : Z) : Z := cbrt_bits 40 n 0.

(** The round constants: the first 32 bits of the fractional parts of the
    cube roots of the primes. *)
Definition K : list Z := map (fun p => cbrt (p * 2 ^ 96) mod 2 ^ 32) primes.

(** The eight chaining words (also the eight working variables a..h). *)
Record hstate : Type := H8 {
  wa : Z; wb : Z; wc : Z; wd : Z; we : Z; wf : Z; wg : Z; wh : Z
}.

(** The initial hash value: the first 32 bits of the fractional parts of
    the square roots of the first eight primes. *)
Definition frac_sqrt (p : Z) : Z := Z.sqrt (p * 2 ^ 64) mod 2 ^ 32.

Definition H0 : hstate :=
  H8 (frac_sqrt 2) (frac_sqrt 3) (frac_sqrt 5) (frac_sqrt 7)
     (frac_sqrt 11) (frac_sqrt 13) (frac_sqrt 17) (frac_sqrt 19).

(** Padding: the byte 0x80, then zero bytes up to 56 modulo 64, then the
    bit length as a 64-bit big-endian number. *)
Definition be_bytes (n : nat) (x : Z) : list Z :=
  map (fun i => Z.land (Z.shiftr x (8 * Z.of_nat i)) 0xff) (rev (seq 0 n)).

Definition pad (msg : list Z) : list Z :=
  let len := Z.of_nat (length msg) in
  msg ++ [0x80] ++ repeat 0 (Z.to_nat ((55 - len) mod 64)) ++ be_bytes 8 (8 * len).

Fixpoint chunks (fuel n : nat) (l : list Z) : list (list Z) :=
  match fuel with
  | O => []
  | S fuel' =>
      match l with
      | [] => []
      | _ :: _ => firstn n l :: chunks fuel' n (skipn n l)
      end
  end.

Definition be_word (bs : list Z) : Z :=
  fold_left (fun acc b => Z.lor (Z.shiftl acc 8) b) bs 0.

Definition block_words (block : list Z) : list Z :=
  map be_word (chunks 16 4 block).

(** Message schedule, kept newest word first while it is extended. *)
Fixpoint extend (n : nat) (rev_w : list Z) : list Z :=
  match n with
  | O => rev_w
  | S n' =>
      let w := add32 (add32 (add32 (sigma1 (nth 1 rev_w 0)) (nth 6 rev_w 0))
                            (sigma0 (nth 14 rev_w 0)))
                     (nth 15 rev_w 0) in
      extend n' (w :: rev_w)
  end.

Definition schedule (m : list Z) : list Z := rev (extend 48 (rev m)).

Definition round (s : hstate) (kw : Z * Z) : hstate :=
  let t1 := add32 (add32 (add32 (add32 (wh s) (Sigma1 (we s)))
                                (Ch (we s) (wf s) (wg s)))
                         (fst kw))
                  (snd kw) in
  let t2 := add32 (Sigma0 (wa s)) (Maj (wa s) (wb s) (wc s)) in
  H8 (add32 t1 t2) (wa s) (wb s) (wc s) (add32 (wd s) t1) (we s) (wf s) (wg s).

Definition compress (h : hstate) (block : list Z) : hstate :=
  let s := fold_left round (combine K (schedule (block_words block))) h in
  H8 (add32 (wa h) (wa s)) (add32 (wb h) (wb s))
     (add32 (wc h) (wc s)) (add32 (wd h) (wd s))
     (add32 (we h) (we s)) (add32 (wf h) (wf s))
     (add32 (wg h) (wg s)) (add32 (wh h) (wh s)).

Definition digest (msg : list Z) : hstate :=
  let p := pad msg in
  fold_left compress (chunks (length p) 64 p) H0.

(** [hexdigest()]: lower-case hexadecimal, eight digits per word. *)
Definition hexdigit (n : Z) : ascii :=
  nth (Z.to_nat n) (list_ascii_of_string "0123456789abcdef") "0"%char.

Definition nibble (w : Z) (i : Z) : ascii :=
  hexdigit (Z.land (Z.shiftr w (4 * i)) 0xf).

Definition hex32 (w : Z) : string :=
  String (nibble w 7) (String (nibble w 6) (String (nibble w 5)
  (String (nibble w 4) (String (nibble w 3) (String (nibble w 2)
  (String (nibble w 1) (String (nibble w 0) EmptyString))))))).

Definition hexdigest (h : hstate) : string :=
  hex32 (wa h) +:+ hex32 (wb h) +:+ hex32 (wc h) +:+ hex32 (wd h) +:+
  hex32 (we h) +:+ hex32 (wf h) +:+ hex32 (wg h) +:+ hex32 (wh h).

End SHA256.

(** [str.encode()] on the UTF-8 representation. *)
Definition encode (s : string) : list Z :=
  map (fun c => Z.of_N (N_of_ascii c)) (list_ascii_of_string s).

(** [hash_password], main.py lines 81-82. *)
Definition hash_password (pw : string) : string :=
  SHA256.hexdigest (SHA256.digest (encode pw)).


(** ** Data model: the three JSON documents *)

(** An entry of [menu.json]: [{"id", "name", "category", "price"}]. *)
Record MenuItem : Type := {
  it_id : Z;
  it_name : string;
  it_category : string;
  it_price : Z
}.

(** An entry of the ["items"] of an order: [{"id", "name", "price", "qty"}]. *)
Record OrderItem : Type := {
  oi_id : Z;
  oi_name : string;
  oi_price : Z;
  oi_qty : Z
}.

(** An entry of [orders.json]. *)
Record OrderRecord : Type := {
  timestamp : string;
  buyer : string;
  note : string;
  items : list OrderItem;
  total : Z
}.

(** The key under which [config.json] keeps the hash (lines 51, 290, 364). *)
Definition admin_password_sha256 : string := "admin_password_sha256".

(** A file of the application directory: absent, present but not
    parseable as JSON, or holding a document. *)
Inductive file (A : Type) : Type :=
| Missing
| Garbled
| Holds (doc : A).
Arguments Missing {A}.
Arguments Garbled {A}.
Arguments Holds {A} doc.

Record Disk : Type := {
  menu_json : file (list MenuItem);
  orders_json : file (list OrderRecord);
  config_json : file (gmap string string)
}.

Inductive path : Type := MENU_FILE | ORDERS_FILE | CONFIG_FILE.

(** What [open(path, "w")] followed by [json.dump] can do: succeed, fail
    to open (the file keeps its content), or fail after the file was
    truncated (the file is left unparseable). *)
Inductive write_fault : Type := NoFault | OpenFails | DumpFails.

Inductive exn : Type := FileNotFoundError | JSONDecodeError | OSError.

(** The dialogs of [tkinter.messagebox] and the admin window. *)
Inductive ui_event : Type :=
| showinfo (title message : string)
| showwarning (title message : string)
| showerror (title message : string)
| Toplevel (title : string).

(** The fields of [BazaarApp] that are not widgets. [cart] maps an item id
    to a quantity, in insertion order. *)
Record BazaarApp : Type := {
  menu_items : list MenuItem;
  orders : list OrderRecord;
  config : gmap string string;
  cart : list (Z * Z)
}.

Record World : Type := {
  self : BazaarApp;
  disk : Disk;
  shown : list ui_event
}.

(** ** Python statements: state, with exceptions that keep the state *)

Inductive result (A : Type) : Type :=
| Return (a : A)
| Raise (e : exn).
Arguments Return {A} a.
Arguments Raise {A} e.

Definition M (A : Type) : Type := World -> result A * World.

Definition ret {A : Type} (a : A) : M A := fun w => (Return a, w).

Definition raise {A : Type} (e : exn) : M A := fun w => (Raise e, w).

Definition bind {A B : Type} (m : M A) (k : A -> M B) : M B :=
  fun w =>
    match m w with
    | (Return a, w') => k a w'
    | (Raise e, w') => (Raise e, w')
    end.

Declare Scope prog_scope.
Delimit Scope prog_scope with prog.
Bind Scope prog_scope with M.
Notation "x <- m ;; k" := (bind m (fun x => k))
  (at level 100, m at next level, k at level 200, right associativity,
   only parsing) : prog_scope.
Notation "m ;; k" := (bind m (fun _ => k))
  (at level 100, k at level 200, right associativity, only parsing) : prog_scope.

Definition get_self : M BazaarApp := fun w => (Return (self w), w).
Definition get_disk : M Disk := fun w => (Return (disk w), w).

Definition set_self (a : BazaarApp) : M unit :=
  fun w => (Return tt, {| self := a; disk := disk w; shown := shown w |}).

Definition set_disk (d : Disk) : M unit :=
  fun w => (Return tt, {| self := self w; disk := d; shown := shown w |}).

Definition show (e : ui_event) : M unit :=
  fun w => (Return tt, {| self := self w; disk := disk w; shown := shown w ++ [e] |}).

Definition with_menu_items (v : list MenuItem) (a : BazaarApp) : BazaarApp :=
  {| menu_items := v; orders := orders a; config := config a; cart := cart a |}.
Definition with_orders (v : list OrderRecord) (a : BazaarApp) : BazaarApp :=
  {| menu_items := menu_items a; orders := v; config := config a; cart := cart a |}.
Definition with_config (v : gmap string string) (a : BazaarApp) : BazaarApp :=
  {| menu_items := menu_items a; orders := orders a; config := v; cart := cart a |}.
Definition with_cart (v : list (Z * Z)) (a : BazaarApp) : BazaarApp :=
  {| menu_items := menu_items a; orders := orders a; config := config a; cart := v |}.

Definition with_menu_json (f : file (list MenuItem)) (d : Disk) : Disk :=
  {| menu_json := f; orders_json := orders_json d; config_json := config_json d |}.
Definition with_orders_json (f : file (list OrderRecord)) (d : Disk) : Disk :=
  {| menu_json := menu_json d; orders_json := f; config_json := config_json d |}.
Definition with_config_json (f : file (gmap string string)) (d : Disk) : Disk :=
  {| menu_json := menu_json d; orders_json := orders_json d; config_json := f |}.

(** ** Utilities (main.py lines 30-82) *)

(** [os.path.exists]. *)
Definition path_exists {A : Type} (f : file A) : bool :=
  match f with
  | Missing => false
  | Garbled | Holds _ => true
  end.

(** [with open(p, "r") as f: return json.load(f)]. *)
Definition json_load {A : Type} (f : file A) : M A :=
  match f with
  | Missing => raise FileNotFoundError
  | Garbled => raise JSONDecodeError
  | Holds doc => ret doc
  end.

(** [with open(p, "w") as f: json.dump(doc, f, ...)]. *)
Definition json_dump {A : Type} (fault : write_fault)
    (put : file A -> Disk -> Disk) (doc : A) : M unit :=
  match fault with
  | NoFault => (d <- get_disk ;; set_disk (put (Holds doc) d))%prog
  | OpenFails => raise OSError
  | DumpFails => (d <- get_disk ;; set_disk (put Garbled d) ;; raise OSError)%prog
  end.

Definition sample_menu : list MenuItem :=
  [ {| it_id := 1; it_name := "Nasi Goreng"; it_category := "Makanan"; it_price := 12000 |};
    {| it_id := 2; it_name := "Mie Goreng"; it_category := "Makanan"; it_price := 10000 |};
    {| it_id := 3; it_name := "Bakso"; it_category := "Makanan"; it_price := 15000 |};
    {| it_id := 4; it_name := "Es Teh Manis"; it_category := "Minuman"; it_price := 5000 |};
    {| it_id := 5; it_name := "Jus Jeruk"; it_category := "Minuman"; it_price := 8000 |};
    {| it_id := 6; it_name := "Roti Bakar"; it_category := "Snack"; it_price := 7000 |} ].

Definition load_menu : M (list MenuItem) :=
  (d <- get_disk ;; json_load (menu_json d))%prog.

Definition load_orders : M (list OrderRecord) :=
  (d <- get_disk ;; json_load (orders_json d))%prog.

Definition save_orders (io : path -> write_fault) (os : list OrderRecord) : M unit :=
  json_dump (io ORDERS_FILE) with_orders_json os.

Definition load_config : M (gmap string string) :=
  (d <- get_disk ;; json_load (config_json d))%prog.

Definition save_config (io : path -> write_fault) (cfg : gmap string string) : M unit :=
  json_dump (io CONFIG_FILE) with_config_json cfg.

Definition ensure_files_exist (io : path -> write_fault) : M unit :=
  (d <- get_disk ;;
   (if path_exists (menu_json d) then ret tt
    else json_dump (io MENU_FILE) with_menu_json sample_menu) ;;
   d <- get_disk ;;
   (if path_exists (orders_json d) then ret tt
    else json_dump (io ORDERS_FILE) with_orders_json []) ;;
   d <- get_disk ;;
   (if path_exists (config_json d) then ret tt
    else
      let default_pw := "admin123" in
      let default_hash := SHA256.hexdigest (SHA256.digest (encode default_pw)) in
      let cfg : gmap string string := {[ admin_password_sha256 := default_hash ]} in
      json_dump (io CONFIG_FILE) with_config_json cfg))%prog.

(** ** The application (main.py lines 86-366) *)

(** The format specification [{n:,}] on an [int]: decimal digits with a
    comma between groups of three, counted from the right. *)
Fixpoint group3 (rev_digits : list ascii) : list ascii :=
  match rev_digits with
  | a :: b :: c :: ((_ :: _) as more) => a :: b :: c :: ","%char :: group3 more
  | _ => rev_digits
  end.

Definition thousands (n : Z) : string :=
  let digits := list_ascii_of_string (NilZero.string_of_uint (N.to_uint (Z.abs_N n))) in
  (if n <? 0 then "-" else "") +:+ string_of_list_ascii (rev (group3 (rev digits))).

(** Truth value of an [Optional[str]]: [None] and [""] are false. *)
Definition truthy (s : option string) : bool :=
  match s with
  | None => false
  | Some EmptyString => false
  | Some (String _ _) => true
  end.

(** [s or ""]. *)
Definition or_empty (s : option string) : string :=
  match s with
  | None => ""
  | Some v => v
  end.

(** [BazaarApp.__init__], lines 101-106 (the widgets left out). *)
Definition __init__ (io : path -> write_fault) : M unit :=
  (ensure_files_exist io ;;
   menu <- load_menu ;;
   app <- get_self ;; set_self (with_menu_items menu app) ;;
   os <- load_orders ;;
   app <- get_self ;; set_self (with_orders os app) ;;
   cfg <- load_config ;;
   app <- get_self ;; set_self (with_config cfg app) ;;
   app <- get_self ;; set_self (with_cart [] app))%prog.

(** [clear_cart], lines 246-248; [refresh_cart_view] only redraws. *)
Definition clear_cart : M unit :=
  (app <- get_self ;; set_self (with_cart [] app))%prog.

(** [next((x for x in self.menu_items if x["id"] == item_id), None)]. *)
Definition find_item (menu : list MenuItem) (item_id : Z) : option MenuItem :=
  List.find (fun x => it_id x =? item_id) menu.

(** One turn of the loop of lines 263-268 on [(order_items, total)]. *)
Definition order_line (menu : list MenuItem) (acc : list OrderItem * Z)
    (line : Z * Z) : list OrderItem * Z :=
  let item_id := fst line in
  let qty := snd line in
  match find_item menu item_id with
  | None => acc
  | Some item =>
      (fst acc ++ [ {| oi_id := item_id; oi_name := it_name item;
                       oi_price := it_price item; oi_qty := qty |} ],
       snd acc + it_price item * qty)
  end.

(** [place_order], lines 250-282. [utcnow] is
    [datetime.datetime.utcnow().isoformat()]; [ask_buyer] and [ask_note]
    are the answers to the two [askstring] dialogs. Past [if not buyer]
    the answer is a non-empty [str], which [or_empty] returns as it is. *)
Definition place_order (io : path -> write_fault) (utcnow : string)
    (ask_buyer ask_note : option string) : M unit :=
  (app <- get_self ;;
   match cart app with
   | [] => show (showwarning "Peringatan" "Keranjang kosong.")
   | _ :: _ =>
       if negb (truthy ask_buyer) then
         show (showinfo "Batal" "Pemesanan dibatalkan (nama diperlukan).")
       else
         let acc := fold_left (order_line (menu_items app)) (cart app) ([], 0) in
         let order :=
           {| timestamp := utcnow +:+ "Z";
              buyer := or_empty ask_buyer;
              note := or_empty ask_note;
              items := fst acc;
              total := snd acc |} in
         set_self (with_orders (orders app ++ [order]) app) ;;
         app' <- get_self ;;
         save_orders io (orders app') ;;
         show (showinfo "Sukses" ("Pesanan diterima! Total Rp " +:+ thousands (snd acc))) ;;
         clear_cart
   end)%prog.

(** The comparison of lines 289-290:
    [hash_password(pw) == self.config.get("admin_password_sha256", "")]. *)
Definition stored_hash (cfg : gmap string string) : string :=
  default "" (cfg !! admin_password_sha256).

Definition authenticate (cfg : gmap string string) (pw : string) : bool :=
  let pw_hash := hash_password pw in
  String.eqb pw_hash (stored_hash cfg).

(** [open_admin_panel], lines 295-330: the window is created, then the
    order log is read again from the disk. *)
Definition open_admin_panel : M unit :=
  (show (Toplevel "Panel Admin - Daftar Pesanan") ;;
   os <- load_orders ;;
   app <- get_self ;;
   set_self (with_orders os app))%prog.

(** [open_admin_login], lines 285-293. *)
Definition open_admin_login (ask_pw : option string) : M unit :=
  match ask_pw with
  | None => ret tt
  | Some pw =>
      (app <- get_self ;;
       if authenticate (config app) pw then open_admin_panel
       else show (showerror "Gagal" "Password salah."))%prog
  end.

(** [_admin_change_password], lines 355-366. The second dialog is only
    opened when the first answer is a non-empty string; [new_pw != confirm]
    compares that string with the second answer, which may be [None]. *)
Definition _admin_change_password (io : path -> write_fault)
    (ask_new ask_confirm : option string) : M unit :=
  if negb (truthy ask_new) then
    show (showinfo "Batal" "Perubahan password dibatalkan.")
  else if negb (bool_decide (ask_new = ask_confirm)) then
    show (showerror "Gagal" "Password tidak cocok.")
  else
    (app <- get_self ;;
     set_self (with_config
                 (<[admin_password_sha256 := hash_password (or_empty ask_new)]> (config app))
                 app) ;;
     app' <- get_self ;;
     save_config io (config app') ;;
     show (showinfo "Sukses" "Password admin berhasil diperbarui."))%prog.

(** ** Vocabulary of the specification *)

(** The four validation failures the specification names. *)
Inductive rejection : Type :=
| EmptyCartError
| MissingBuyerError
| MismatchError
| EmptyPasswordError.

(** The dialog by which main.py reports each of them (lines 252, 257,
    362 and 358). *)
Definition report (r : rejection) : ui_event :=
  match r with
  | EmptyCartError => showwarning "Peringatan" "Keranjang kosong."
  | MissingBuyerError => showinfo "Batal" "Pemesanan dibatalkan (nama diperlukan)."
  | MismatchError => showerror "Gagal" "Password tidak cocok."
  | EmptyPasswordError => showinfo "Batal" "Perubahan password dibatalkan."
  end.

(** [m] fails with [r] in [w]: it returns after the dialog of [r] and has
    changed neither the application state nor the disk. *)
Definition fails_with (r : rejection) (m : M unit) (w : World) : Prop :=
  m w = (Return tt, {| self := self w; disk := disk w; shown := shown w ++ [report r] |}).

(** The entry of an order that a cart line yields, if its id is in the menu. *)
Definition resolve (menu : list MenuItem) (line : Z * Z) : option OrderItem :=
  match find_item menu (fst line) with
  | None => None
  | Some item =>
      Some {| oi_id := fst line; oi_name := it_name item;
              oi_price := it_price item; oi_qty := snd line |}
  end.

(** Sum of [qty * price] over the entries of an order. *)
Definition cost (entries : list OrderItem) : Z :=
  foldr (fun e acc => oi_qty e * oi_price e + acc) 0 entries.

(** The price the catalog gives for an id (0 for an id it does not have). *)
Definition catalog_price (menu : list MenuItem) (item_id : Z) : Z :=
  match find_item menu item_id with
  | None => 0
  | Some item => it_price item
  end.

(** Sum over the cart lines of quantity times catalog price. *)
Definition cart_total (menu : list MenuItem) (lines : list (Z * Z)) : Z :=
  foldr (fun line acc => snd line * catalog_price menu (fst line) + acc) 0 lines.

(** A cart line references an id present in the menu. *)
Definition in_catalog (menu : list MenuItem) (line : Z * Z) : bool :=
  existsb (fun item => it_id item =? fst line) menu.

(** The record [place_order] builds once the cart and the buyer are accepted. *)
Definition new_order (app : BazaarApp) (utcnow : string)
    (ask_buyer ask_note : option string) : OrderRecord :=
  let acc := fold_left (order_line (menu_items app)) (cart app) ([], 0) in
  {| timestamp := utcnow +:+ "Z";
     buyer := or_empty ask_buyer;
     note := or_empty ask_note;
     items := fst acc;
     total := snd acc |}.

(** ** Concrete worlds *)

Definition no_fault : path -> write_fault := fun _ => NoFault.

Definition orders_unwritable : path -> write_fault :=
  fun p => match p with ORDERS_FILE => OpenFails | _ => NoFault end.

Definition fresh_disk : Disk :=
  {| menu_json := Missing; orders_json := Missing; config_json := Missing |}.

(** The process before [BazaarApp(root)] has run. *)
Definition boot (d : Disk) : World :=
  {| self := {| menu_items := []; orders := []; config := ∅; cart := [] |};
     disk := d;
     shown := [] |}.

(** The application started in an empty directory. *)
Definition started : World := snd (__init__ no_fault (boot fresh_disk)).

(** The same, with two portions of item 1 and one of item 4 in the cart. *)
Definition shopping : World :=
  {| self := with_cart [(1, 2); (4, 1)] (self started);
     disk := disk started;
     shown := shown started |}.

(** A directory whose [config.json] was written by hand, with another
    field name than the one main.py reads. *)
Definition renamed_key_disk : Disk :=
  {| menu_json := Missing;
     orders_json := Missing;
     config_json := Holds {[ "admin_password_hash" := hash_password "admin123" ]} |}.

Definition keyless : World := snd (__init__ no_fault (boot renamed_key_disk)).

(** ** The cart (main.py lines 196-248) *)

(** [d.get(k, default)] and [d[k] = v] on a [dict] kept as an association
    list: an assignment to a key the dict has keeps the key where it is, a
    new key goes to the end. *)
Fixpoint dict_get (d : list (Z * Z)) (k default : Z) : Z :=
  match d with
  | [] => default
  | (k', v) :: d' => if k' =? k then v else dict_get d' k default
  end.

Fixpoint dict_set (d : list (Z * Z)) (k v : Z) : list (Z * Z) :=
  match d with
  | [] => [(k, v)]
  | (k', v') :: d' => if k' =? k then (k, v) :: d' else (k', v') :: dict_set d' k v
  end.

(** The content of a [tk.IntVar] bound to a spinbox: text that
    [IntVar.get] reads as an integer, or text on which it raises
    [TclError]. *)
Inductive IntVar : Type :=
| int_text (v : Z)
| other_text.

(** The application with the widget state that the callbacks read:
    [item_qty_vars] (item id to spinbox variable) and the export files
    written next to the three documents, by path. *)
Record Gui : Type := {
  world : World;
  item_qty_vars : gmap Z IntVar;
  exports : gmap string (file (list OrderRecord))
}.

(** How a callback ends. *)
Inductive outcome : Type :=
| Returned
| Raised (e : exn)
| RaisedTclError.

Definition with_world (w : World) (g : Gui) : Gui :=
  {| world := w; item_qty_vars := item_qty_vars g; exports := exports g |}.

(** A callback that touches neither the spinboxes nor the export files. *)
Definition lift (m : M unit) (g : Gui) : outcome * Gui :=
  match m (world g) with
  | (Return _, w') => (Returned, with_world w' g)
  | (Raise e, w') => (Raised e, with_world w' g)
  end.

(** [self.item_qty_vars.get(id, tk.IntVar()).get()]: a fresh [IntVar]
    holds 0; [None] stands for [TclError]. *)
Definition qty_of (vars : gmap Z IntVar) (item_id : Z) : option Z :=
  match vars !! item_id with
  | None => Some 0
  | Some (int_text v) => Some v
  | Some other_text => None
  end.

(** [selected_cat in ("Semua", "", it["category"])], line 202. *)
Definition listed (selected_cat : string) (it : MenuItem) : bool :=
  String.eqb selected_cat "Semua" || String.eqb selected_cat ""
  || String.eqb selected_cat (it_category it).

(** [refresh_menu_list], lines 196-217: every listed item gets a new
    variable holding 0; the variables of the other items stay in the dict. *)
Definition refresh_menu_list (selected_cat : string) (g : Gui) : Gui :=
  let filtered := List.filter (listed selected_cat) (menu_items (self (world g))) in
  {| world := world g;
     item_qty_vars :=
       fold_left (fun vars it => <[it_id it := int_text 0]> vars) filtered (item_qty_vars g);
     exports := exports g |}.

(** The loop of [add_selected_to_cart], lines 221-227, on
    [(cart, item_qty_vars, added)]; the first component is [false] when
    [IntVar.get] raised, with the state reached until then. *)
Fixpoint add_loop (menu : list MenuItem) (cart : list (Z * Z))
    (vars : gmap Z IntVar) (added : bool)
    : bool * (list (Z * Z) * gmap Z IntVar * bool) :=
  match menu with
  | [] => (true, (cart, vars, added))
  | it :: rest =>
      match qty_of vars (it_id it) with
      | None => (false, (cart, vars, added))
      | Some qty =>
          if negb (qty =? 0) && (qty >? 0) then
            let prev := dict_get cart (it_id it) 0 in
            add_loop rest (dict_set cart (it_id it) (prev + qty))
                     (<[it_id it := int_text 0]> vars) true
          else add_loop rest cart vars added
      end
  end.

(** [add_selected_to_cart], lines 219-231; [refresh_cart_view] only redraws. *)
Definition add_selected_to_cart (g : Gui) : outcome * Gui :=
  let app := self (world g) in
  let r := add_loop (menu_items app) (cart app) (item_qty_vars g) false in
  let w' := {| self := with_cart (fst (fst (snd r))) app;
               disk := disk (world g);
               shown := shown (world g) |} in
  let g' := {| world := w'; item_qty_vars := snd (fst (snd r)); exports := exports g |} in
  if negb (fst r) then (RaisedTclError, g')
  else if negb (snd (snd r)) then
    lift (show (showinfo "Info" "Pilih jumlah item terlebih dahulu.")) g'
  else (Returned, g').

(** A row of the cart table: name, quantity, formatted subtotal. *)
Record cart_row : Type := {
  row_name : string;
  row_qty : Z;
  row_subtotal : string
}.

(** One turn of the loop of [refresh_cart_view], lines 237-243, on
    [(rows, total)]. *)
Definition view_line (menu : list MenuItem) (acc : list cart_row * Z)
    (line : Z * Z) : list cart_row * Z :=
  let item_id := fst line in
  let qty := snd line in
  match find_item menu item_id with
  | None => acc
  | Some item =>
      let subtotal := it_price item * qty in
      (fst acc ++ [ {| row_name := it_name item; row_qty := qty;
                       row_subtotal := "Rp " +:+ thousands subtotal |} ],
       snd acc + subtotal)
  end.

(** [refresh_cart_view], lines 233-244: the rows put in [cart_tree] and
    the text put in [total_var]. *)
Definition refresh_cart_view (app : BazaarApp) : list cart_row * string :=
  let acc := fold_left (view_line (menu_items app)) (cart app) ([], 0) in
  (fst acc, "Total: Rp " +:+ thousands (snd acc)).

(** ** The admin panel (main.py lines 332-353) *)

(** [_admin_refresh], lines 332-339 (the rows of the table left out). *)
Definition _admin_refresh : M unit :=
  (os <- load_orders ;;
   app <- get_self ;;
   set_self (with_orders os app) ;;
   show (showinfo "Sukses" "Daftar pesanan diperbarui."))%prog.

(** [_admin_clear_orders], lines 347-353; [askyesno] is the answer to the
    confirmation dialog. *)
Definition _admin_clear_orders (io : path -> write_fault) (askyesno : bool) : M unit :=
  if negb askyesno then ret tt
  else
    (app <- get_self ;;
     set_self (with_orders [] app) ;;
     app' <- get_self ;;
     save_orders io (orders app') ;;
     _admin_refresh ;;
     show (showinfo "Sukses" "Semua pesanan telah dihapus."))%prog.

(** [os.path.join(a, b)] of [posixpath], for a [b] that does not start
    with a slash. *)
Definition ends_with_slash (a : string) : bool :=
  match rev (list_ascii_of_string a) with
  | c :: _ => Ascii.eqb c "/"%char
  | [] => false
  end.

Definition os_path_join (a b : string) : string :=
  if String.eqb a "" || ends_with_slash a then a +:+ b else a +:+ "/" +:+ b.

(** [_admin_export_json], lines 341-345. [stamp] is
    [datetime.datetime.utcnow().strftime('%Y%m%d%H%M%S')] and [fault] what
    the write of the export file does. The file is opened, and so
    truncated, before [load_orders()] is evaluated. *)
Definition _admin_export_json (APP_DIR stamp : string) (fault : write_fault)
    (g : Gui) : outcome * Gui :=
  let path := os_path_join APP_DIR ("orders_export_" +:+ stamp +:+ ".json") in
  let put f := {| world := world g; item_qty_vars := item_qty_vars g;
                  exports := <[path := f]> (exports g) |} in
  match fault with
  | OpenFails => (Raised OSError, g)
  | NoFault | DumpFails =>
      match orders_json (disk (world g)) with
      | Missing => (Raised FileNotFoundError, put Garbled)
      | Garbled => (Raised JSONDecodeError, put Garbled)
      | Holds os =>
          match fault with
          | NoFault =>
              lift (show (showinfo "Ekspor Selesai" ("File diekspor ke: " +:+ path)))
                   (put (Holds os))
          | _ => (Raised OSError, put Garbled)
          end
      end
  end.

(** ** The callbacks bound to the buttons and the combobox *)

(** A user action (lines 145, 185-187, 192 and 327-330) with the answers
    given to the dialogs it opens. The last four are buttons of the admin
    window; [run] does not ask that one is open. *)
Inductive command : Type :=
| ComboboxSelected (selected_cat : string)
| Tambah_ke_Keranjang
| Bersihkan_Keranjang
| Pesan_Sekarang (utcnow : string) (ask_buyer ask_note : option string)
| Admin (ask_pw : option string)
| Refresh
| Export_JSON (stamp : string)
| Hapus_Semua_Pesanan (askyesno : bool)
| Ganti_Password_Admin (ask_new ask_confirm : option string).

(** What the file system does while one callback runs. *)
Record environment : Type := {
  io_of : path -> write_fault;
  export_fault : write_fault
}.

Definition run (APP_DIR : string) (env : environment) (c : command) (g : Gui)
    : outcome * Gui :=
  match c with
  | ComboboxSelected selected_cat => (Returned, refresh_menu_list selected_cat g)
  | Tambah_ke_Keranjang => add_selected_to_cart g
  | Bersihkan_Keranjang => lift clear_cart g
  | Pesan_Sekarang utcnow ask_buyer ask_note =>
      lift (place_order (io_of env) utcnow ask_buyer ask_note) g
  | Admin ask_pw => lift (open_admin_login ask_pw) g
  | Refresh => lift _admin_refresh g
  | Export_JSON stamp => _admin_export_json APP_DIR stamp (export_fault env) g
  | Hapus_Semua_Pesanan askyesno => lift (_admin_clear_orders (io_of env) askyesno) g
  | Ganti_Password_Admin ask_new ask_confirm =>
      lift (_admin_change_password (io_of env) ask_new ask_confirm) g
  end.

(** [root.mainloop()], line 371: the callbacks run one after the other; an
    exception raised by one is reported and the loop goes on. *)
Fixpoint mainloop (APP_DIR : string) (events : list (environment * command))
    (g : Gui) : Gui :=
  match events with
  | [] => g
  | (env, c) :: rest => mainloop APP_DIR rest (snd (run APP_DIR env c g))
  end.

(** How each of the callbacks of [mainloop] ends. *)
Fixpoint outcomes (APP_DIR : string) (events : list (environment * command))
    (g : Gui) : list outcome :=
  match events with
  | [] => []
  | (env, c) :: rest =>
      fst (run APP_DIR env c g) :: outcomes APP_DIR rest (snd (run APP_DIR env c g))
  end.

(** ** Predicates on states *)

(** What the memory holds is what the three documents hold. *)
Definition mirrors (w : World) : Prop :=
  menu_json (disk w) = Holds (menu_items (self w))
  /\ orders_json (disk w) = Holds (orders (self w))
  /\ config_json (disk w) = Holds (config (self w)).

(** The cart is a dict (no key twice) of ids of the menu with positive
    quantities. *)
Definition cart_ok (app : BazaarApp) : Prop :=
  NoDup (map fst (cart app))
  /\ Forall (fun line => in_catalog (menu_items app) line = true /\ 0 < snd line)
            (cart app).

(** The quantity [add_selected_to_cart] takes from a spinbox: what it
    holds when that is a positive integer, else 0. *)
Definition selected (vars : gmap Z IntVar) (item_id : Z) : Z :=
  match vars !! item_id with
  | Some (int_text v) => if 0 <? v then v else 0
  | _ => 0
  end.

Definition has_id (menu : list MenuItem) (item_id : Z) : bool :=
  existsb (fun it => it_id it =? item_id) menu.

(** Every spinbox of the menu can be read. *)
Definition readable (menu : list MenuItem) (vars : gmap Z IntVar) : Prop :=
  forall it, In it menu -> vars !! it_id it <> Some other_text.

(** The number of admin windows created so far. *)
Definition panels (w : World) : nat :=
  length (List.filter (fun e => match e with Toplevel _ => true | _ => false end) (shown w)).

(** [str(n)] and the removal of the commas of a formatted number. *)
Definition str_int (n : Z) : string :=
  (if n <? 0 then "-" else "") +:+ NilZero.string_of_uint (N.to_uint (Z.abs_N n)).

Definition not_comma (c : ascii) : bool := negb (Ascii.eqb c ","%char).

Definition without_commas (s : string) : string :=
  string_of_list_ascii (List.filter not_comma (list_ascii_of_string s)).

Definition is_lower_hex (c : ascii) : bool :=
  existsb (Ascii.eqb c) (list_ascii_of_string "0123456789abcdef").

(** ** Concrete states of the whole application *)

Definition faultless : environment :=
  {| io_of := no_fault; export_fault := NoFault |}.

Definition read_only : environment :=
  {| io_of := fun _ => OpenFails; export_fault := OpenFails |}.

(** [shopping], with three portions of item 2 and one more of item 1
    chosen in the spinboxes. *)
Definition choosing : Gui :=
  {| world := shopping;
     item_qty_vars := {[ 1 := int_text 1; 2 := int_text 3; 3 := int_text 0 ]};
     exports := ∅ |}.

(** The same, the spinbox of item 3 emptied by hand. *)
Definition mistyped : Gui :=
  {| world := shopping;
     item_qty_vars := {[ 1 := int_text 1; 2 := int_text 3; 3 := other_text ]};
     exports := ∅ |}.

(** [shopping] with no spinbox of the menu touched. *)
Definition browsing : Gui :=
  {| world := shopping; item_qty_vars := {[ 7 := int_text 5 ]}; exports := ∅ |}.

(** A cart that still holds item 9, which the menu does not have. *)
Definition stale_cart : World :=
  {| self := with_cart [(9, 2); (4, 1)] (self started);
     disk := disk started;
     shown := [] |}.

(** A shop with one order taken. *)
Definition one_sale : World :=
  snd (place_order no_fault "2024-05-17T09:30:00" (Some "Ana") None shopping).

(** ** The embedding agrees with [hashlib] and with [format] *)

Example sha256_constants :
  firstn 4 SHA256.K = [0x428a2f98; 0x71374491; 0xb5c0fbcf; 0xe9b5dba5]
  /\ last SHA256.K = Some 0xc67178f2
  /\ length SHA256.K = 64%nat
  /\ SHA256.wa SHA256.H0 = 0x6a09e667
  /\ SHA256.wh SHA256.H0 = 0x5be0cd19.
Proof. vm_compute. repeat split. Qed.

Example sha256_empty :
  hash_password "" = "e3b0c44298fc1c149afbf4c8996fb92427ae41e4649b934ca495991b7852b855".
Proof. vm_compute. reflexivity. Qed.

Example sha256_abc :
  hash_password "abc" = "ba7816bf8f01cfea414140de5dae2223b00361a396177a9cb410ff61f20015ad".
Proof. vm_compute. reflexivity. Qed.

Example sha256_admin123 :
  hash_password "admin123" = "240be518fabd2724ddb6f04eeb1da5967448d7e831c08c8fa822809f74c720a9".
Proof. vm_compute. reflexivity. Qed.

(** 56 bytes: the padding spills into a second block. *)
Example sha256_two_blocks :
  hash_password "aaaaaaaaaaaaaaaaaaaaaaaaaaaaaaaaaaaaaaaaaaaaaaaaaaaaaaaa"
  = "b35439a4ac6f0948b6d6f9e3c6af0f5f590ce20f1bde7090ef7970686ec6738a".
Proof. vm_compute. reflexivity. Qed.

Example sha256_64_bytes :
  hash_password "aaaaaaaaaaaaaaaaaaaaaaaaaaaaaaaaaaaaaaaaaaaaaaaaaaaaaaaaaaaaaaaa"
  = "ffe054fe7ae0cb6dc65c3af9b61d5209f439851db43d0ba5997337df154668eb".
Proof. vm_compute. reflexivity. Qed.

Example thousands_24000 : thousands 24000 = "24,000".
Proof. reflexivity. Qed.

Example thousands_negative : thousands (-1234567) = "-1,234,567".
Proof. reflexivity. Qed.

Example thousands_small : thousands 999 = "999" /\ thousands 0 = "0" /\ thousands (-100) = "-100".
Proof. repeat split. Qed.

Example started_world :
  started =
  {| self := {| menu_items := sample_menu; orders := [];
                config := {[ admin_password_sha256 := hash_password "admin123" ]};
                cart := [] |};
     disk := {| menu_json := Holds sample_menu; orders_json := Holds [];
                config_json := Holds {[ admin_password_sha256 := hash_password "admin123" ]} |};
     shown := [] |}.
Proof. reflexivity. Qed.

(** ** The password hash *)

Lemma string_length_app (s t : string) :
  String.length (s +:+ t) = (String.length s + String.length t)%nat.
Proof. induction s as [|c s IH]; simpl; [reflexivity | now rewrite IH]. Qed.

Lemma hex32_length (w : Z) : String.length (SHA256.hex32 w) = 8%nat.
Proof. reflexivity. Qed.

(** A hex digest has 64 characters, whatever was hashed. *)
Lemma hash_password_length (pw : string) : String.length (hash_password pw) = 64%nat.
Proof.
  unfold hash_password, SHA256.hexdigest.
  repeat rewrite string_length_app. repeat rewrite hex32_length. reflexivity.
Qed.

Lemma hash_password_nonempty (pw : string) : hash_password pw <> "".
Proof.
  intros E. pose proof (hash_password_length pw) as L.
  rewrite E in L. discriminate L.
Qed.

Lemma authenticate_true (cfg : gmap string string) (pw : string) :
  authenticate cfg pw = true <-> hash_password pw = stored_hash cfg.
Proof. unfold authenticate. apply String.eqb_eq. Qed.

Lemma authenticate_false (cfg : gmap string string) (pw : string) :
  authenticate cfg pw = false <-> hash_password pw <> stored_hash cfg.
Proof. unfold authenticate. apply String.eqb_neq. Qed.

Lemma truthy_Some (s : string) : truthy (Some s) = true <-> s <> "".
Proof. destruct s; simpl; split; intros; congruence. Qed.

(** ** The loop of [place_order] *)

Lemma order_line_resolve (menu : list MenuItem) (acc : list OrderItem * Z) (line : Z * Z) :
  order_line menu acc line =
  match resolve menu line with
  | None => acc
  | Some e => (fst acc ++ [e], snd acc + oi_price e * oi_qty e)
  end.
Proof. unfold order_line, resolve. destruct (find_item menu (fst line)); reflexivity. Qed.

(** The loop keeps the entries of the lines whose id the menu has, in cart
    order, and adds their cost to the total. *)
Lemma fold_order_line (menu : list MenuItem) (lines : list (Z * Z)) :
  forall acc : list OrderItem * Z,
    fold_left (order_line menu) lines acc =
    (fst acc ++ omap (resolve menu) lines,
     snd acc + cost (omap (resolve menu) lines)).
Proof.
  induction lines as [|line lines IH]; intros [entries sum]; simpl.
  - rewrite app_nil_r. f_equal. lia.
  - rewrite IH, order_line_resolve.
    destruct (resolve menu line) as [e|]; simpl.
    + rewrite <- app_assoc. simpl. f_equal. unfold omap. lia.
    + reflexivity.
Qed.

Lemma resolve_in_catalog (menu : list MenuItem) (line : Z * Z) :
  in_catalog menu line = true ->
  exists item,
    find_item menu (fst line) = Some item /\
    In item menu /\ it_id item = fst line /\
    resolve menu line =
      Some {| oi_id := fst line; oi_name := it_name item;
              oi_price := it_price item; oi_qty := snd line |}.
Proof.
  unfold in_catalog. intros H. apply existsb_exists in H as (m & Hin & Hid).
  unfold resolve.
  destruct (find_item menu (fst line)) as [item|] eqn:F.
  - exists item. unfold find_item in F.
    apply find_some in F as [Hi He]. apply Z.eqb_eq in He. auto.
  - unfold find_item in F. apply (find_none _ _ F) in Hin.
    simpl in Hin. congruence.
Qed.

Lemma omap_resolve_cons (menu : list MenuItem) (line : Z * Z) (lines : list (Z * Z)) :
  omap (resolve menu) (line :: lines) =
  match resolve menu line with
  | None => omap (resolve menu) lines
  | Some e => e :: omap (resolve menu) lines
  end.
Proof. reflexivity. Qed.

(** One entry per cart line when every line is in the catalog. *)
Lemma omap_resolve_valid (menu : list MenuItem) (lines : list (Z * Z)) :
  forallb (in_catalog menu) lines = true ->
  Forall2 (fun line e =>
             oi_id e = fst line /\ oi_qty e = snd line /\
             oi_price e = catalog_price menu (fst line) /\
             exists item, In item menu /\ it_id item = fst line /\
                          oi_name e = it_name item /\ oi_price e = it_price item)
          lines (omap (resolve menu) lines)
  /\ cost (omap (resolve menu) lines) = cart_total menu lines.
Proof.
  induction lines as [|line lines IH]; intros V.
  - split; [constructor | reflexivity].
  - simpl in V. apply andb_prop in V as [Hl V]. destruct (IH V) as [IH1 IH2].
    destruct (resolve_in_catalog menu line Hl) as (item & F & Hin & Hid & R).
    rewrite omap_resolve_cons, R.
    assert (P : catalog_price menu (fst line) = it_price item)
      by (unfold catalog_price; now rewrite F).
    split.
    + constructor; [|exact IH1]. cbn [oi_id oi_qty oi_price oi_name].
      repeat split; [now rewrite P|]. exists item. auto.
    + cbn [cost cart_total foldr oi_qty oi_price]. fold (cost (omap (resolve menu) lines)).
      fold (cart_total menu lines). now rewrite IH2, P.
Qed.

(** With unique ids, the catalog price of an id is the price of the one
    menu item that carries it. *)
Lemma catalog_price_unique (menu : list MenuItem) (item : MenuItem) :
  NoDup (map it_id menu) -> In item menu ->
  catalog_price menu (it_id item) = it_price item.
Proof.
  unfold catalog_price, find_item.
  induction menu as [|m menu IH]; simpl; intros ND Hin; [contradiction|].
  inversion ND as [|? ? Hnot ND']; subst.
  destruct (it_id m =? it_id item) eqn:E.
  - destruct Hin as [->|Hin]; [reflexivity|].
    apply Z.eqb_eq in E. exfalso. apply Hnot. rewrite E.
    apply list_elem_of_In. now apply in_map.
  - destruct Hin as [->|Hin]; [rewrite Z.eqb_refl in E; discriminate|].
    now apply IH.
Qed.

(** The invariant of the data model, for every cart: the total of the
    record is the sum of [qty * price] over its items (lines whose id the
    menu does not have contribute to neither). *)
Lemma new_order_total (a : BazaarApp) utcnow ask_buyer ask_note :
  total (new_order a utcnow ask_buyer ask_note)
  = cost (items (new_order a utcnow ask_buyer ask_note))
  /\ items (new_order a utcnow ask_buyer ask_note)
     = omap (resolve (menu_items a)) (cart a).
Proof.
  unfold new_order. rewrite fold_order_line. cbn [items total fst snd app].
  split; [apply Z.add_0_l | reflexivity].
Qed.

(** ** [place_order], path by path *)

Section PlaceOrderPaths.

Variable io : path -> write_fault.
Variable utcnow : string.
Variables ask_buyer ask_note : option string.
Variable w : World.

Lemma place_order_empty_cart :
  cart (self w) = [] ->
  place_order io utcnow ask_buyer ask_note w = show (report EmptyCartError) w.
Proof. intros E. unfold place_order, bind, get_self. rewrite E. reflexivity. Qed.

Lemma place_order_no_buyer :
  cart (self w) <> [] -> truthy ask_buyer = false ->
  place_order io utcnow ask_buyer ask_note w = show (report MissingBuyerError) w.
Proof.
  intros C T. unfold place_order, bind, get_self.
  destruct (cart (self w)); [contradiction|]. rewrite T. reflexivity.
Qed.

(** Once the cart and the buyer are accepted the record is appended in
    memory; what follows depends on the write of [orders.json]. *)
Lemma place_order_accepted :
  cart (self w) <> [] -> truthy ask_buyer = true ->
  let o := new_order (self w) utcnow ask_buyer ask_note in
  let log := orders (self w) ++ [o] in
  place_order io utcnow ask_buyer ask_note w =
  match io ORDERS_FILE with
  | NoFault =>
      (Return tt,
       {| self := with_cart [] (with_orders log (self w));
          disk := with_orders_json (Holds log) (disk w);
          shown := shown w ++
                   [showinfo "Sukses" ("Pesanan diterima! Total Rp " +:+ thousands (total o))] |})
  | OpenFails =>
      (Raise OSError,
       {| self := with_orders log (self w); disk := disk w; shown := shown w |})
  | DumpFails =>
      (Raise OSError,
       {| self := with_orders log (self w);
          disk := with_orders_json Garbled (disk w);
          shown := shown w |})
  end.
Proof.
  intros C T. unfold place_order, bind, get_self.
  destruct (cart (self w)) eqn:E; [contradiction|]. rewrite T. simpl.
  unfold save_orders, json_dump, new_order. rewrite E.
  destruct (io ORDERS_FILE); reflexivity.
Qed.

End PlaceOrderPaths.

(** ** Order placement *)

(** C1. For a non-empty cart whose every line references an id of the
    menu (the buyer having given a name and [orders.json] being written),
    [place_order] returns having appended and persisted a record whose
    [total] is the sum over the cart lines of quantity times catalog price,
    which is also the sum of [qty * price] over its [items], and whose
    [items] has one entry [{id, name, price, qty}] per cart line, in cart
    order, with the name and price of a menu item carrying that id. *)
Theorem place_order_total io utcnow (b : string) ask_note (w : World) :
  cart (self w) <> [] ->
  forallb (in_catalog (menu_items (self w))) (cart (self w)) = true ->
  b <> "" ->
  io ORDERS_FILE = NoFault ->
  exists o : OrderRecord,
    place_order io utcnow (Some b) ask_note w =
      (Return tt,
       {| self := with_cart [] (with_orders (orders (self w) ++ [o]) (self w));
          disk := with_orders_json (Holds (orders (self w) ++ [o])) (disk w);
          shown := shown w ++
                   [showinfo "Sukses" ("Pesanan diterima! Total Rp " +:+ thousands (total o))] |})
    /\ buyer o = b
    /\ total o = cart_total (menu_items (self w)) (cart (self w))
    /\ total o = cost (items o)
    /\ Forall2 (fun line e =>
                  oi_id e = fst line /\ oi_qty e = snd line /\
                  oi_price e = catalog_price (menu_items (self w)) (fst line) /\
                  exists item, In item (menu_items (self w)) /\ it_id item = fst line /\
                               oi_name e = it_name item /\ oi_price e = it_price item)
               (cart (self w)) (items o).
Proof.
  intros C V B F.
  exists (new_order (self w) utcnow (Some b) ask_note).
  pose proof (place_order_accepted io utcnow (Some b) ask_note w C
                (proj2 (truthy_Some b) B)) as P.
  cbv zeta in P. rewrite F in P. split; [exact P|].
  destruct (omap_resolve_valid _ _ V) as [V1 V2].
  unfold new_order. rewrite fold_order_line. cbn [items total buyer fst snd or_empty app].
  rewrite Z.add_0_l. auto.
Qed.

Lemma place_order_total_witness :
  exists o : OrderRecord,
    place_order no_fault "2024-05-17T09:30:00" (Some "Ana") None shopping =
      (Return tt,
       {| self := with_cart [] (with_orders (orders (self shopping) ++ [o]) (self shopping));
          disk := with_orders_json (Holds (orders (self shopping) ++ [o])) (disk shopping);
          shown := shown shopping ++
                   [showinfo "Sukses" ("Pesanan diterima! Total Rp " +:+ thousands (total o))] |})
    /\ buyer o = "Ana"
    /\ total o = cart_total (menu_items (self shopping)) (cart (self shopping))
    /\ total o = cost (items o)
    /\ Forall2 (fun line e =>
                  oi_id e = fst line /\ oi_qty e = snd line /\
                  oi_price e = catalog_price (menu_items (self shopping)) (fst line) /\
                  exists item, In item (menu_items (self shopping)) /\ it_id item = fst line /\
                               oi_name e = it_name item /\ oi_price e = it_price item)
               (cart (self shopping)) (items o).
Proof.
  apply (place_order_total no_fault "2024-05-17T09:30:00" "Ana" None shopping);
    [discriminate | reflexivity | discriminate | reflexivity].
Defined.

(** The scenario of the specification: item 1 costs 12000 and the cart is
    [{1: 2}]; the log gains one record, of total 24000. *)
Example place_order_scenario :
  let w := {| self := with_cart [(1, 2)] (self started);
              disk := disk started; shown := [] |} in
  place_order no_fault "2024-05-17T09:30:00" (Some "Ana") None w =
  (Return tt,
   let o := {| timestamp := "2024-05-17T09:30:00Z"; buyer := "Ana"; note := "";
               items := [ {| oi_id := 1; oi_name := "Nasi Goreng";
                             oi_price := 12000; oi_qty := 2 |} ];
               total := 24000 |} in
   {| self := with_cart [] (with_orders [o] (self started));
      disk := with_orders_json (Holds [o]) (disk started);
      shown := [showinfo "Sukses" "Pesanan diterima! Total Rp 24,000"] |}).
Proof. reflexivity. Qed.

(** C6. On an empty cart [place_order] fails with [EmptyCartError]: it
    returns after the warning, and neither the order log in memory nor
    [orders.json] has changed. *)
Theorem place_order_empty_cart_rejected io utcnow ask_buyer ask_note (w : World) :
  cart (self w) = [] ->
  fails_with EmptyCartError (place_order io utcnow ask_buyer ask_note) w
  /\ orders (self (snd (place_order io utcnow ask_buyer ask_note w))) = orders (self w)
  /\ orders_json (disk (snd (place_order io utcnow ask_buyer ask_note w)))
     = orders_json (disk w).
Proof.
  intros E. unfold fails_with. rewrite (place_order_empty_cart _ _ _ _ _ E).
  repeat split.
Qed.

Lemma place_order_empty_cart_rejected_witness :
  fails_with EmptyCartError
    (place_order orders_unwritable "2024-05-17T09:30:00" (Some "Ana") (Some "meja 3")) started
  /\ orders (self (snd (place_order orders_unwritable "2024-05-17T09:30:00"
                          (Some "Ana") (Some "meja 3") started)))
     = orders (self started)
  /\ orders_json (disk (snd (place_order orders_unwritable "2024-05-17T09:30:00"
                               (Some "Ana") (Some "meja 3") started)))
     = orders_json (disk started).
Proof.
  apply (place_order_empty_cart_rejected orders_unwritable "2024-05-17T09:30:00"
           (Some "Ana") (Some "meja 3") started).
  reflexivity.
Defined.

(** C2, as stated, fails: a buyer name made of one space is not trimmed;
    the order is accepted, appended and written to [orders.json]. *)
Lemma place_order_blank_buyer_accepted :
  ~ fails_with MissingBuyerError
      (place_order no_fault "2024-05-17T09:30:00" (Some " ") None) shopping
  /\ (exists o : OrderRecord,
        buyer o = " " /\
        orders (self (snd (place_order no_fault "2024-05-17T09:30:00" (Some " ") None shopping)))
        = orders (self shopping) ++ [o] /\
        orders_json (disk (snd (place_order no_fault "2024-05-17T09:30:00" (Some " ") None shopping)))
        = Holds (orders (self shopping) ++ [o])).
Proof.
  split.
  - unfold fails_with. intros H. apply (f_equal (fun x => cart (self (snd x)))) in H.
    vm_compute in H. discriminate H.
  - exists (new_order (self shopping) "2024-05-17T09:30:00" (Some " ") None).
    repeat split; reflexivity.
Qed.

(** C2, amended. For a non-empty cart, [place_order] with an empty buyer
    name, or with the name dialog cancelled, fails with
    [MissingBuyerError], and neither appends to the order log nor writes
    [orders.json]. *)
Theorem place_order_missing_buyer io utcnow ask_buyer ask_note (w : World) :
  cart (self w) <> [] ->
  ask_buyer = Some "" \/ ask_buyer = None ->
  fails_with MissingBuyerError (place_order io utcnow ask_buyer ask_note) w
  /\ orders (self (snd (place_order io utcnow ask_buyer ask_note w))) = orders (self w)
  /\ disk (snd (place_order io utcnow ask_buyer ask_note w)) = disk w.
Proof.
  intros C B. unfold fails_with.
  rewrite (place_order_no_buyer io utcnow ask_buyer ask_note w C)
    by (destruct B; subst; reflexivity).
  repeat split.
Qed.

Lemma place_order_missing_buyer_witness :
  fails_with MissingBuyerError
    (place_order no_fault "2024-05-17T09:30:00" (Some "") (Some "meja 3")) shopping
  /\ orders (self (snd (place_order no_fault "2024-05-17T09:30:00" (Some "")
                          (Some "meja 3") shopping)))
     = orders (self shopping)
  /\ disk (snd (place_order no_fault "2024-05-17T09:30:00" (Some "") (Some "meja 3") shopping))
     = disk shopping.
Proof.
  apply (place_order_missing_buyer no_fault "2024-05-17T09:30:00" (Some "")
           (Some "meja 3") shopping);
    [discriminate | left; reflexivity].
Defined.

(** C10. The record [place_order] creates stores the answer to the note
    dialog, and the empty string when that dialog was cancelled; whatever
    happens to the write, [orders.json] is then untouched, unparseable, or
    holds the log ending with that record. *)
Theorem place_order_note io utcnow (b : string) ask_note (w : World) :
  cart (self w) <> [] ->
  b <> "" ->
  exists (o : OrderRecord) (r : result unit) (w' : World),
    place_order io utcnow (Some b) ask_note w = (r, w')
    /\ orders (self w') = orders (self w) ++ [o]
    /\ note o = match ask_note with None => "" | Some s => s end
    /\ (orders_json (disk w') = orders_json (disk w)
        \/ orders_json (disk w') = Garbled
        \/ orders_json (disk w') = Holds (orders (self w) ++ [o])).
Proof.
  intros C B.
  pose proof (place_order_accepted io utcnow (Some b) ask_note w C
                (proj2 (truthy_Some b) B)) as P.
  cbv zeta in P.
  exists (new_order (self w) utcnow (Some b) ask_note).
  destruct (io ORDERS_FILE); do 2 eexists; (split; [exact P|]);
    (split; [reflexivity|]); (split; [destruct ask_note; reflexivity|]); cbn; auto.
Qed.

Lemma place_order_note_witness :
  exists (o : OrderRecord) (r : result unit) (w' : World),
    place_order no_fault "2024-05-17T09:30:00" (Some "Ana") None shopping = (r, w')
    /\ orders (self w') = orders (self shopping) ++ [o]
    /\ note o = ""
    /\ (orders_json (disk w') = orders_json (disk shopping)
        \/ orders_json (disk w') = Garbled
        \/ orders_json (disk w') = Holds (orders (self shopping) ++ [o])).
Proof.
  apply (place_order_note no_fault "2024-05-17T09:30:00" "Ana" None shopping);
    discriminate.
Defined.

(** C4, as stated, fails: when [orders.json] cannot be opened for
    writing, [place_order] raises and the record stays in the log held in
    memory. *)
Lemma place_order_keeps_unsaved_record :
  fst (place_order orders_unwritable "2024-05-17T09:30:00" (Some "Ana") None shopping)
  = Raise OSError
  /\ orders (self (snd (place_order orders_unwritable "2024-05-17T09:30:00"
                          (Some "Ana") None shopping)))
     <> orders (self shopping)
  /\ orders_json (disk (snd (place_order orders_unwritable "2024-05-17T09:30:00"
                               (Some "Ana") None shopping)))
     = Holds [].
Proof. repeat split. discriminate. Qed.

(** C4, amended. If the write of [orders.json] fails, [place_order] does
    not return: the error of the write propagates, no success dialog is
    shown and the cart is kept; the order log in memory is its state
    before the call followed by the new record (nothing is rolled back),
    while [orders.json] is untouched or left unparseable. *)
Theorem place_order_persist_failure io utcnow (b : string) ask_note (w : World) :
  cart (self w) <> [] ->
  b <> "" ->
  io ORDERS_FILE <> NoFault ->
  exists (o : OrderRecord) (w' : World),
    place_order io utcnow (Some b) ask_note w = (Raise OSError, w')
    /\ o = new_order (self w) utcnow (Some b) ask_note
    /\ orders (self w') = orders (self w) ++ [o]
    /\ cart (self w') = cart (self w)
    /\ shown w' = shown w
    /\ (orders_json (disk w') = orders_json (disk w) \/ orders_json (disk w') = Garbled).
Proof.
  intros C B F.
  pose proof (place_order_accepted io utcnow (Some b) ask_note w C
                (proj2 (truthy_Some b) B)) as P.
  cbv zeta in P.
  exists (new_order (self w) utcnow (Some b) ask_note).
  destruct (io ORDERS_FILE); [contradiction| |];
    eexists; (split; [exact P|]); cbn; auto 10.
Qed.

Lemma place_order_persist_failure_witness :
  exists (o : OrderRecord) (w' : World),
    place_order orders_unwritable "2024-05-17T09:30:00" (Some "Ana") None shopping
    = (Raise OSError, w')
    /\ o = new_order (self shopping) "2024-05-17T09:30:00" (Some "Ana") None
    /\ orders (self w') = orders (self shopping) ++ [o]
    /\ cart (self w') = cart (self shopping)
    /\ shown w' = shown shopping
    /\ (orders_json (disk w') = orders_json (disk shopping)
        \/ orders_json (disk w') = Garbled).
Proof.
  apply (place_order_persist_failure orders_unwritable "2024-05-17T09:30:00" "Ana"
           None shopping); discriminate.
Defined.

(** ** The credential document *)

Lemma ensure_files_exist_fresh :
  ensure_files_exist no_fault (boot fresh_disk) =
  (Return tt,
   {| self := self (boot fresh_disk);
      disk := {| menu_json := Holds sample_menu; orders_json := Holds [];
                 config_json :=
                   Holds {[ admin_password_sha256 := hash_password "admin123" ]} |};
      shown := [] |}).
Proof. reflexivity. Qed.

(** C3, as stated, fails: the document written in an empty directory has
    no field named [admin_password_hash]. *)
Lemma default_config_field_name :
  ~ (exists cfg : gmap string string,
       config_json (disk (snd (ensure_files_exist no_fault (boot fresh_disk)))) = Holds cfg
       /\ cfg !! "admin_password_hash" = Some (hash_password "admin123")).
Proof.
  rewrite ensure_files_exist_fresh. cbn [snd disk config_json].
  intros (cfg & H & L). injection H as <-.
  rewrite lookup_singleton_ne in L by (unfold admin_password_sha256; discriminate).
  discriminate L.
Qed.

(** C3, amended. When [config.json] is absent (and the files that are
    written can be written), [ensure_files_exist] creates a credential
    document whose only field, named [admin_password_sha256], holds the
    SHA-256 hex digest of ["admin123"]; the first [load_config] returns it. *)
Theorem ensure_files_exist_default_config io (w : World) :
  config_json (disk w) = Missing ->
  (forall p, io p = NoFault) ->
  exists w' : World,
    ensure_files_exist io w = (Return tt, w')
    /\ config_json (disk w') = Holds {[ "admin_password_sha256" := hash_password "admin123" ]}
    /\ load_config w' =
       (Return {[ "admin_password_sha256" := hash_password "admin123" ]}, w')
    /\ hash_password "admin123"
       = "240be518fabd2724ddb6f04eeb1da5967448d7e831c08c8fa822809f74c720a9".
Proof.
  intros Hc Hio. destruct w as [app [mj oj cj] sh]. cbn in Hc. subst cj.
  pose proof sha256_admin123 as D. revert D.
  unfold ensure_files_exist. cbv zeta. fold (hash_password "admin123").
  generalize (hash_password "admin123") as h. intros h D.
  unfold bind, get_disk, json_dump, load_config. rewrite !Hio.
  destruct mj, oj; eexists; repeat split; exact D.
Qed.

Lemma ensure_files_exist_default_config_witness :
  exists w' : World,
    ensure_files_exist no_fault (boot fresh_disk) = (Return tt, w')
    /\ config_json (disk w') = Holds {[ "admin_password_sha256" := hash_password "admin123" ]}
    /\ load_config w' =
       (Return {[ "admin_password_sha256" := hash_password "admin123" ]}, w')
    /\ hash_password "admin123"
       = "240be518fabd2724ddb6f04eeb1da5967448d7e831c08c8fa822809f74c720a9".
Proof.
  apply (ensure_files_exist_default_config no_fault (boot fresh_disk));
    [reflexivity | intros p; reflexivity].
Defined.

(** ** The admin gate *)

Lemma stored_hash_Some (cfg : gmap string string) (h : string) :
  cfg !! admin_password_sha256 = Some h -> stored_hash cfg = h.
Proof. unfold stored_hash. now intros ->. Qed.

Lemma stored_hash_None (cfg : gmap string string) :
  cfg !! admin_password_sha256 = None -> stored_hash cfg = "".
Proof. unfold stored_hash. now intros ->. Qed.

Lemma open_admin_login_wrong (pw : string) (w : World) :
  authenticate (config (self w)) pw = false ->
  open_admin_login (Some pw) w = show (showerror "Gagal" "Password salah.") w.
Proof. intros A. unfold open_admin_login, bind, get_self. now rewrite A. Qed.

Lemma open_admin_login_right (pw : string) (w : World) :
  authenticate (config (self w)) pw = true ->
  open_admin_login (Some pw) w = open_admin_panel w.
Proof. intros A. unfold open_admin_login, bind, get_self. now rewrite A. Qed.

Lemma open_admin_panel_keeps_credential (w : World) :
  config (self (snd (open_admin_panel w))) = config (self w)
  /\ disk (snd (open_admin_panel w)) = disk w.
Proof.
  unfold open_admin_panel, load_orders, bind, show, get_disk, json_load. cbn.
  destruct (orders_json (disk w)); cbn; auto.
Qed.

Lemma open_admin_login_keeps_credential (ask_pw : option string) (w : World) :
  config (self (snd (open_admin_login ask_pw w))) = config (self w)
  /\ disk (snd (open_admin_login ask_pw w)) = disk w.
Proof.
  destruct ask_pw as [pw|]; [|split; reflexivity].
  destruct (authenticate (config (self w)) pw) eqn:A.
  - rewrite (open_admin_login_right _ _ A). apply open_admin_panel_keeps_credential.
  - rewrite (open_admin_login_wrong _ _ A). split; reflexivity.
Qed.

(** C5. With hash [h] stored in the credential, the password check is
    true exactly when the SHA-256 hex digest of the input is [h], and
    false on any other input; when it is true the login goes on to the
    admin panel, when it is false the login returns after the error
    dialog, raising nothing. In both cases the credential, in memory and
    on disk, is unchanged. *)
Theorem authenticate_correct (h pw : string) (w : World) :
  config (self w) !! admin_password_sha256 = Some h ->
  (authenticate (config (self w)) pw = true <-> hash_password pw = h)
  /\ (authenticate (config (self w)) pw = false <-> hash_password pw <> h)
  /\ open_admin_login (Some pw) w =
     (if authenticate (config (self w)) pw then open_admin_panel w
      else (Return tt,
            {| self := self w; disk := disk w;
               shown := shown w ++ [showerror "Gagal" "Password salah."] |}))
  /\ config (self (snd (open_admin_login (Some pw) w))) = config (self w)
  /\ disk (snd (open_admin_login (Some pw) w)) = disk w.
Proof.
  intros S. apply stored_hash_Some in S.
  pose proof (authenticate_true (config (self w)) pw) as T.
  pose proof (authenticate_false (config (self w)) pw) as F.
  rewrite S in T, F.
  split; [exact T|]. split; [exact F|]. split.
  - destruct (authenticate (config (self w)) pw) eqn:A.
    + now apply open_admin_login_right.
    + now apply open_admin_login_wrong.
  - apply open_admin_login_keeps_credential.
Qed.

Lemma authenticate_correct_witness :
  (authenticate (config (self started)) "guess" = true
   <-> hash_password "guess" = hash_password "admin123")
  /\ (authenticate (config (self started)) "guess" = false
      <-> hash_password "guess" <> hash_password "admin123")
  /\ open_admin_login (Some "guess") started =
     (if authenticate (config (self started)) "guess" then open_admin_panel started
      else (Return tt,
            {| self := self started; disk := disk started;
               shown := shown started ++ [showerror "Gagal" "Password salah."] |}))
  /\ config (self (snd (open_admin_login (Some "guess") started))) = config (self started)
  /\ disk (snd (open_admin_login (Some "guess") started)) = disk started.
Proof.
  apply (authenticate_correct (hash_password "admin123") "guess" started).
  reflexivity.
Defined.

Example login_default_password :
  open_admin_login (Some "admin123") started =
  (Return tt,
   {| self := self started; disk := disk started;
      shown := [Toplevel "Panel Admin - Daftar Pesanan"] |}).
Proof. vm_compute. reflexivity. Qed.

Example login_wrong_password :
  open_admin_login (Some "admin124") started =
  (Return tt,
   {| self := self started; disk := disk started;
      shown := [showerror "Gagal" "Password salah."] |}).
Proof. vm_compute. reflexivity. Qed.

(** C9. If the credential read from [config.json] has no
    [admin_password_sha256] key, the stored hash defaults to the empty
    string, which no hex digest (64 characters) equals: the check is false
    for every password and the login returns after the error dialog. *)
Theorem authenticate_without_key (pw : string) (w : World) :
  config (self w) !! admin_password_sha256 = None ->
  stored_hash (config (self w)) = ""
  /\ String.length (hash_password pw) = 64%nat
  /\ authenticate (config (self w)) pw = false
  /\ open_admin_login (Some pw) w = show (showerror "Gagal" "Password salah.") w.
Proof.
  intros N. apply stored_hash_None in N.
  assert (A : authenticate (config (self w)) pw = false).
  { apply authenticate_false. rewrite N. apply hash_password_nonempty. }
  split; [exact N|]. split; [apply hash_password_length|]. split; [exact A|].
  now apply open_admin_login_wrong.
Qed.

Lemma authenticate_without_key_witness :
  stored_hash (config (self keyless)) = ""
  /\ String.length (hash_password "admin123") = 64%nat
  /\ authenticate (config (self keyless)) "admin123" = false
  /\ open_admin_login (Some "admin123") keyless
     = show (showerror "Gagal" "Password salah.") keyless.
Proof.
  apply (authenticate_without_key "admin123" keyless). reflexivity.
Defined.

(** ** Changing the password *)

Lemma change_password_empty io ask_new ask_confirm (w : World) :
  truthy ask_new = false ->
  _admin_change_password io ask_new ask_confirm w = show (report EmptyPasswordError) w.
Proof. intros T. unfold _admin_change_password. now rewrite T. Qed.

Lemma change_password_differs io ask_new ask_confirm (w : World) :
  truthy ask_new = true -> ask_new <> ask_confirm ->
  _admin_change_password io ask_new ask_confirm w = show (report MismatchError) w.
Proof.
  intros T N. unfold _admin_change_password. rewrite T.
  now rewrite (bool_decide_eq_false_2 _ N).
Qed.

Lemma change_password_agrees io (p : string) (w : World) :
  p <> "" ->
  let cfg := <[admin_password_sha256 := hash_password p]> (config (self w)) in
  _admin_change_password io (Some p) (Some p) w =
  match io CONFIG_FILE with
  | NoFault =>
      (Return tt,
       {| self := with_config cfg (self w);
          disk := with_config_json (Holds cfg) (disk w);
          shown := shown w ++ [showinfo "Sukses" "Password admin berhasil diperbarui."] |})
  | OpenFails =>
      (Raise OSError,
       {| self := with_config cfg (self w); disk := disk w; shown := shown w |})
  | DumpFails =>
      (Raise OSError,
       {| self := with_config cfg (self w);
          disk := with_config_json Garbled (disk w);
          shown := shown w |})
  end.
Proof.
  intros P. apply truthy_Some in P. unfold _admin_change_password. rewrite P.
  rewrite bool_decide_eq_true_2 by reflexivity.
  change (or_empty (Some p)) with p. generalize (hash_password p). intros h.
  unfold save_config, json_dump. destruct (io CONFIG_FILE); reflexivity.
Qed.

(** C7, as stated, fails: with an empty new password the confirmation is
    never compared; the change is cancelled with [EmptyPasswordError], not
    refused with [MismatchError]. *)
Lemma change_password_empty_differs :
  "" <> "a"
  /\ ~ fails_with MismatchError
        (_admin_change_password no_fault (Some "") (Some "a")) started
  /\ fails_with EmptyPasswordError
       (_admin_change_password no_fault (Some "") (Some "a")) started.
Proof.
  split; [discriminate|]. unfold fails_with.
  rewrite (change_password_empty no_fault (Some "") (Some "a") started eq_refl).
  split; [|reflexivity].
  intros H. apply (f_equal (fun x => shown (snd x))) in H. discriminate H.
Qed.

(** C7, amended. When the confirmation differs from the new password [p],
    the change fails with [MismatchError] if [p] is not empty and with
    [EmptyPasswordError] if it is; either way the credential is unchanged,
    in memory and in [config.json]. *)
Theorem change_password_mismatch io (p : string) ask_confirm (w : World) :
  ask_confirm <> Some p ->
  fails_with (if String.eqb p "" then EmptyPasswordError else MismatchError)
    (_admin_change_password io (Some p) ask_confirm) w
  /\ config (self (snd (_admin_change_password io (Some p) ask_confirm w))) = config (self w)
  /\ config_json (disk (snd (_admin_change_password io (Some p) ask_confirm w)))
     = config_json (disk w).
Proof.
  intros N. unfold fails_with. destruct (String.eqb_spec p "") as [->|P].
  - rewrite (change_password_empty io (Some "") ask_confirm w eq_refl).
    repeat split.
  - rewrite (change_password_differs io (Some p) ask_confirm w);
      [repeat split | now apply truthy_Some | congruence].
Qed.

Lemma change_password_mismatch_witness :
  fails_with MismatchError
    (_admin_change_password no_fault (Some "kantin-2024") (Some "kantin-2025")) started
  /\ config (self (snd (_admin_change_password no_fault (Some "kantin-2024")
                          (Some "kantin-2025") started)))
     = config (self started)
  /\ config_json (disk (snd (_admin_change_password no_fault (Some "kantin-2024")
                               (Some "kantin-2025") started)))
     = config_json (disk started).
Proof.
  apply (change_password_mismatch no_fault "kantin-2024" (Some "kantin-2025") started).
  discriminate.
Defined.

(** C8. For a non-empty [p], [change_password(p, p)] succeeds (the write
    of [config.json] going through): it returns after the success dialog
    with the digest of [p] stored in memory and on disk. Afterwards the
    check accepts [p] and rejects every password whose digest differs from
    that of [p], the previously valid one included. *)
Theorem change_password_rotates io (p old : string) (w : World) :
  p <> "" ->
  io CONFIG_FILE = NoFault ->
  hash_password old <> hash_password p ->
  exists w' : World,
    _admin_change_password io (Some p) (Some p) w = (Return tt, w')
    /\ shown w' = shown w ++ [showinfo "Sukses" "Password admin berhasil diperbarui."]
    /\ config (self w') !! admin_password_sha256 = Some (hash_password p)
    /\ config_json (disk w') = Holds (config (self w'))
    /\ authenticate (config (self w')) p = true
    /\ authenticate (config (self w')) old = false.
Proof.
  intros P F D. pose proof (change_password_agrees io p w P) as C.
  cbv zeta in C. rewrite F in C.
  eexists. split; [exact C|]. cbn [self disk shown config with_config
                                   config_json with_config_json].
  assert (S : stored_hash (<[admin_password_sha256 := hash_password p]> (config (self w)))
              = hash_password p).
  { apply stored_hash_Some. apply lookup_insert_eq. }
  split; [reflexivity|]. split; [apply lookup_insert_eq|]. split; [reflexivity|].
  split.
  - apply authenticate_true. now rewrite S.
  - apply authenticate_false. now rewrite S.
Qed.

Lemma change_password_rotates_witness :
  exists w' : World,
    _admin_change_password no_fault (Some "kantin-2024") (Some "kantin-2024") started
    = (Return tt, w')
    /\ shown w' = shown started ++ [showinfo "Sukses" "Password admin berhasil diperbarui."]
    /\ config (self w') !! admin_password_sha256 = Some (hash_password "kantin-2024")
    /\ config_json (disk w') = Holds (config (self w'))
    /\ authenticate (config (self w')) "kantin-2024" = true
    /\ authenticate (config (self w')) "admin123" = false.
Proof.
  apply (change_password_rotates no_fault "kantin-2024" "admin123" started).
  - discriminate.
  - reflexivity.
  - vm_compute. discriminate.
Defined.

(** In the started application the default password is the valid one. *)
Example default_password_valid : authenticate (config (self started)) "admin123" = true.
Proof. vm_compute. reflexivity. Qed.

(** ** The cart as a dict *)

Lemma dict_get_set_eq (d : list (Z * Z)) (k v dflt : Z) :
  dict_get (dict_set d k v) k dflt = v.
Proof.
  induction d as [|[k' v'] d IH]; simpl.
  - now rewrite Z.eqb_refl.
  - destruct (k' =? k) eqn:E; simpl; [now rewrite Z.eqb_refl | now rewrite E].
Qed.

Lemma dict_get_set_ne (d : list (Z * Z)) (k k' v dflt : Z) :
  k <> k' -> dict_get (dict_set d k v) k' dflt = dict_get d k' dflt.
Proof.
  intros N. induction d as [|[k0 v0] d IH]; simpl.
  - destruct (k =? k') eqn:E; [apply Z.eqb_eq in E; contradiction | reflexivity].
  - destruct (k0 =? k) eqn:E; simpl.
    + apply Z.eqb_eq in E. subst k0.
      destruct (k =? k') eqn:E'; [apply Z.eqb_eq in E'; contradiction | reflexivity].
    + destruct (k0 =? k'); [reflexivity | exact IH].
Qed.

Lemma dict_set_In (d : list (Z * Z)) (k v : Z) (line : Z * Z) :
  In line (dict_set d k v) -> line = (k, v) \/ In line d.
Proof.
  induction d as [|[k' v'] d IH]; simpl.
  - intros [<-|[]]. now left.
  - destruct (k' =? k); simpl; intros [<-|H]; auto.
    destruct (IH H); auto.
Qed.

Lemma dict_set_key_In (d : list (Z * Z)) (k v k0 : Z) :
  In k0 (map fst (dict_set d k v)) -> k0 = k \/ In k0 (map fst d).
Proof.
  intros H. apply in_map_iff in H as (line & <- & Hin).
  apply dict_set_In in Hin as [->|Hin]; [now left | right; now apply in_map].
Qed.

(** An assignment keeps the keys of a dict distinct. *)
Lemma dict_set_NoDup (d : list (Z * Z)) (k v : Z) :
  NoDup (map fst d) -> NoDup (map fst (dict_set d k v)).
Proof.
  induction d as [|[k' v'] d IH]; simpl; intros ND.
  - apply NoDup_singleton.
  - apply NoDup_cons in ND as [Hn ND].
    destruct (k' =? k) eqn:E; simpl; apply NoDup_cons.
    + apply Z.eqb_eq in E. subst k'. auto.
    + split; [|auto]. intros Hin. apply list_elem_of_In, dict_set_key_In in Hin as [->|Hin].
      * rewrite Z.eqb_refl in E. discriminate.
      * apply Hn. now apply list_elem_of_In.
Qed.

Lemma dict_get_nonneg (d : list (Z * Z)) (k : Z) :
  Forall (fun line => 0 < snd line) d -> 0 <= dict_get d k 0.
Proof.
  induction 1 as [|[k' v'] d H _ IH]; simpl; [lia|].
  destruct (k' =? k); [simpl in H; lia | exact IH].
Qed.

(** ** The loop of [add_selected_to_cart] *)

Lemma positive_test (q : Z) : negb (q =? 0) && (q >? 0) = (0 <? q).
Proof.
  destruct (Z.eqb_spec q 0) as [->|N]; simpl; [reflexivity|].
  rewrite Z.gtb_ltb. reflexivity.
Qed.

Lemma qty_of_readable (vars : gmap Z IntVar) (k : Z) :
  vars !! k <> Some other_text ->
  exists q, qty_of vars k = Some q /\ selected vars k = (if 0 <? q then q else 0).
Proof.
  unfold qty_of, selected. destruct (vars !! k) as [[v|]|]; intros R.
  - now exists v.
  - contradiction.
  - now exists 0.
Qed.

Lemma selected_reset (vars : gmap Z IntVar) (k k' : Z) :
  selected (<[k := int_text 0]> vars) k' = if k =? k' then 0 else selected vars k'.
Proof.
  unfold selected. destruct (Z.eqb_spec k k') as [->|N].
  - now rewrite lookup_insert_eq.
  - now rewrite lookup_insert_ne.
Qed.

Lemma readable_reset (menu : list MenuItem) (vars : gmap Z IntVar) (k : Z) :
  readable menu vars -> readable menu (<[k := int_text 0]> vars).
Proof.
  intros R it Hin. destruct (Z.eq_dec k (it_id it)) as [->|N].
  - rewrite lookup_insert_eq. discriminate.
  - rewrite lookup_insert_ne by exact N. now apply R.
Qed.

Lemma readable_tail (it : MenuItem) (menu : list MenuItem) (vars : gmap Z IntVar) :
  readable (it :: menu) vars -> readable menu vars.
Proof. intros R x Hin. apply R. now right. Qed.

Lemma has_id_cons (it : MenuItem) (menu : list MenuItem) (k : Z) :
  has_id (it :: menu) k = (it_id it =? k) || has_id menu k.
Proof. reflexivity. Qed.

(** When every spinbox of the menu can be read the loop ends normally:
    each id of the menu gains the quantity chosen for it, once, and the
    spinboxes that held a positive quantity are back at 0. *)
Lemma add_loop_readable (menu : list MenuItem) :
  forall (cart : list (Z * Z)) (vars : gmap Z IntVar) (added : bool),
    readable menu vars ->
    exists cart' vars',
      add_loop menu cart vars added =
        (true, (cart', vars',
                added || existsb (fun it => 0 <? selected vars (it_id it)) menu))
      /\ (forall k, dict_get cart' k 0 =
                    dict_get cart k 0 + (if has_id menu k then selected vars k else 0))
      /\ (forall k, vars' !! k =
                    if has_id menu k && (0 <? selected vars k)
                    then Some (int_text 0) else vars !! k).
Proof.
  induction menu as [|it menu IH]; intros cart vars added R.
  - exists cart, vars. simpl. rewrite orb_false_r.
    split; [reflexivity|]. split; intros; [lia | reflexivity].
  - destruct (qty_of_readable vars (it_id it)) as (q & Q & S); [apply R; now left|].
    simpl add_loop. rewrite Q, positive_test.
    change (existsb (fun x => 0 <? selected vars (it_id x)) (it :: menu))
      with ((0 <? selected vars (it_id it))
            || existsb (fun x => 0 <? selected vars (it_id x)) menu).
    destruct (0 <? q) eqn:P.
    + destruct (IH (dict_set cart (it_id it) (dict_get cart (it_id it) 0 + q))
                   (<[it_id it := int_text 0]> vars) true
                   (readable_reset _ _ _ (readable_tail _ _ _ R)))
        as (cart' & vars' & E & C & V).
      exists cart', vars'. rewrite E. split.
      { rewrite S, ?P. simpl. now rewrite orb_true_r. }
      split; intros k; rewrite has_id_cons.
      * rewrite C, selected_reset. destruct (Z.eqb_spec (it_id it) k) as [<-|N]; simpl.
        -- rewrite dict_get_set_eq, S. destruct (has_id menu (it_id it)); lia.
        -- rewrite dict_get_set_ne by exact N. reflexivity.
      * rewrite V, selected_reset. destruct (Z.eqb_spec (it_id it) k) as [<-|N]; simpl.
        -- rewrite lookup_insert_eq, S, ?P. now rewrite andb_false_r.
        -- rewrite lookup_insert_ne by exact N. reflexivity.
    + destruct (IH cart vars added (readable_tail _ _ _ R))
        as (cart' & vars' & E & C & V).
      exists cart', vars'. rewrite E. split.
      { rewrite S. reflexivity. }
      split; intros k; rewrite has_id_cons.
      * rewrite C. destruct (Z.eqb_spec (it_id it) k) as [<-|N]; simpl; [|reflexivity].
        rewrite S. destruct (has_id menu (it_id it)); reflexivity.
      * rewrite V. destruct (Z.eqb_spec (it_id it) k) as [<-|N]; simpl; [|reflexivity].
        rewrite S. simpl. now rewrite andb_false_r.
Qed.

(** With nothing chosen the loop changes nothing. *)
Lemma add_loop_nothing (menu : list MenuItem) :
  forall (cart : list (Z * Z)) (vars : gmap Z IntVar) (added : bool),
    readable menu vars ->
    (forall it, In it menu -> selected vars (it_id it) = 0) ->
    add_loop menu cart vars added = (true, (cart, vars, added)).
Proof.
  induction menu as [|it menu IH]; intros cart vars added R Z0; [reflexivity|].
  destruct (qty_of_readable vars (it_id it)) as (q & Q & S); [apply R; now left|].
  simpl. rewrite Q, positive_test.
  rewrite (Z0 it (or_introl eq_refl)) in S.
  destruct (0 <? q) eqn:P.
  - apply Z.ltb_lt in P. lia.
  - apply IH; [now apply readable_tail with it | intros x Hx; apply Z0; now right].
Qed.

(** The loop on [xs ++ ys] is the loop on [xs], then on [ys] unless a
    spinbox of [xs] could not be read. *)
Lemma add_loop_app (xs ys : list MenuItem) :
  forall (cart : list (Z * Z)) (vars : gmap Z IntVar) (added : bool),
    add_loop (xs ++ ys) cart vars added =
    (if fst (add_loop xs cart vars added)
     then add_loop ys (fst (fst (snd (add_loop xs cart vars added))))
                      (snd (fst (snd (add_loop xs cart vars added))))
                      (snd (snd (add_loop xs cart vars added)))
     else add_loop xs cart vars added).
Proof.
  induction xs as [|it xs IH]; intros cart vars added; [reflexivity|].
  simpl. destruct (qty_of vars (it_id it)) as [q|]; [|reflexivity].
  destruct (negb (q =? 0) && (q >? 0)); apply IH.
Qed.

Lemma with_cart_same (app : BazaarApp) : with_cart (cart app) app = app.
Proof. now destruct app. Qed.

(** With nothing chosen [add_selected_to_cart] only shows its notice. *)
Lemma add_selected_to_cart_idle (g : Gui) :
  readable (menu_items (self (world g))) (item_qty_vars g) ->
  (forall it, In it (menu_items (self (world g))) ->
              selected (item_qty_vars g) (it_id it) = 0) ->
  add_selected_to_cart g =
  lift (show (showinfo "Info" "Pilih jumlah item terlebih dahulu.")) g.
Proof.
  intros R Z0. unfold add_selected_to_cart.
  rewrite (add_loop_nothing _ _ _ false R Z0). cbn [fst snd negb].
  rewrite with_cart_same. destruct g as [[app d sh] vars ex]. reflexivity.
Qed.

Lemma has_id_In (menu : list MenuItem) (it : MenuItem) :
  In it menu -> has_id menu (it_id it) = true.
Proof.
  intros H. unfold has_id. apply existsb_exists. exists it. split; [exact H|].
  apply Z.eqb_refl.
Qed.

(** ** [add_selected_to_cart] *)

(** X1. When every spinbox of the menu can be read,
    [add_selected_to_cart] returns, and for every item id the quantity in
    the cart grows by the positive quantity chosen for it if the id is in
    the menu, and is unchanged otherwise; the spinboxes that were used are
    set back to 0; menu, order log, credential and disk are untouched. *)
Theorem add_selected_to_cart_accumulates (g : Gui) :
  readable (menu_items (self (world g))) (item_qty_vars g) ->
  fst (add_selected_to_cart g) = Returned
  /\ (forall k,
        dict_get (cart (self (world (snd (add_selected_to_cart g))))) k 0 =
        dict_get (cart (self (world g))) k 0
        + (if has_id (menu_items (self (world g))) k
           then selected (item_qty_vars g) k else 0))
  /\ (forall k,
        item_qty_vars (snd (add_selected_to_cart g)) !! k =
        if has_id (menu_items (self (world g))) k && (0 <? selected (item_qty_vars g) k)
        then Some (int_text 0) else item_qty_vars g !! k)
  /\ with_cart (cart (self (world g))) (self (world (snd (add_selected_to_cart g))))
     = self (world g)
  /\ disk (world (snd (add_selected_to_cart g))) = disk (world g).
Proof.
  intros R.
  destruct (add_loop_readable _ (cart (self (world g))) (item_qty_vars g) false R)
    as (cart' & vars' & E & C & V).
  unfold add_selected_to_cart. rewrite E. cbn [fst snd negb orb].
  destruct (existsb _ _); cbn [negb fst snd lift show world self cart with_cart
                                 with_world item_qty_vars disk];
    (split; [reflexivity|]); (split; [exact C|]); (split; [exact V|]);
    (split; [|reflexivity]); destruct (self (world g)); reflexivity.
Qed.

Lemma add_selected_to_cart_accumulates_witness :
  fst (add_selected_to_cart choosing) = Returned
  /\ (forall k,
        dict_get (cart (self (world (snd (add_selected_to_cart choosing))))) k 0 =
        dict_get (cart (self (world choosing))) k 0
        + (if has_id (menu_items (self (world choosing))) k
           then selected (item_qty_vars choosing) k else 0))
  /\ (forall k,
        item_qty_vars (snd (add_selected_to_cart choosing)) !! k =
        if has_id (menu_items (self (world choosing))) k
           && (0 <? selected (item_qty_vars choosing) k)
        then Some (int_text 0) else item_qty_vars choosing !! k)
  /\ with_cart (cart (self (world choosing)))
       (self (world (snd (add_selected_to_cart choosing))))
     = self (world choosing)
  /\ disk (world (snd (add_selected_to_cart choosing))) = disk (world choosing).
Proof.
  apply (add_selected_to_cart_accumulates choosing).
  intros it Hin. simpl in Hin.
  destruct Hin as [<-|[<-|[<-|[<-|[<-|[<-|[]]]]]]]; vm_compute; discriminate.
Defined.

(** The cart of [choosing] after the button: item 1 keeps its place with
    one more portion, item 2 comes last. *)
Example add_selected_to_cart_choosing :
  cart (self (world (snd (add_selected_to_cart choosing)))) = [(1, 3); (4, 1); (2, 3)].
Proof. reflexivity. Qed.

(** X2. When every spinbox of the menu can be read and none holds a
    positive quantity, [add_selected_to_cart] shows its notice and changes
    nothing else: not the cart, not the spinboxes. *)
Theorem add_selected_to_cart_nothing (g : Gui) :
  readable (menu_items (self (world g))) (item_qty_vars g) ->
  (forall it, In it (menu_items (self (world g))) ->
              selected (item_qty_vars g) (it_id it) = 0) ->
  add_selected_to_cart g =
  (Returned,
   {| world := {| self := self (world g); disk := disk (world g);
                  shown := shown (world g)
                           ++ [showinfo "Info" "Pilih jumlah item terlebih dahulu."] |};
      item_qty_vars := item_qty_vars g;
      exports := exports g |}).
Proof. intros R Z0. now rewrite add_selected_to_cart_idle. Qed.

Lemma add_selected_to_cart_nothing_witness :
  add_selected_to_cart browsing =
  (Returned,
   {| world := {| self := self (world browsing); disk := disk (world browsing);
                  shown := shown (world browsing)
                           ++ [showinfo "Info" "Pilih jumlah item terlebih dahulu."] |};
      item_qty_vars := item_qty_vars browsing;
      exports := exports browsing |}).
Proof.
  apply (add_selected_to_cart_nothing browsing);
    intros it Hin; simpl in Hin;
    destruct Hin as [<-|[<-|[<-|[<-|[<-|[<-|[]]]]]]]; vm_compute; (discriminate || reflexivity).
Defined.

Lemma add_selected_to_cart_after (g : Gui) :
  readable (menu_items (self (world g))) (item_qty_vars g) ->
  menu_items (self (world (snd (add_selected_to_cart g)))) = menu_items (self (world g))
  /\ (forall k,
        item_qty_vars (snd (add_selected_to_cart g)) !! k =
        if has_id (menu_items (self (world g))) k && (0 <? selected (item_qty_vars g) k)
        then Some (int_text 0) else item_qty_vars g !! k).
Proof.
  intros R.
  destruct (add_loop_readable _ (cart (self (world g))) (item_qty_vars g) false R)
    as (cart' & vars' & E & C & V).
  unfold add_selected_to_cart. rewrite E. cbn [fst snd negb orb].
  destruct (existsb _ _); cbn [negb fst snd lift show world self cart with_cart
                                 with_world item_qty_vars disk menu_items];
    (split; [reflexivity | exact V]).
Qed.

(** X3. Pressing the button a second time adds nothing more: after an
    [add_selected_to_cart] that could read every spinbox, the next one
    shows the notice and leaves the cart and the spinboxes as they are. *)
Theorem add_selected_to_cart_twice (g : Gui) :
  readable (menu_items (self (world g))) (item_qty_vars g) ->
  add_selected_to_cart (snd (add_selected_to_cart g)) =
  lift (show (showinfo "Info" "Pilih jumlah item terlebih dahulu."))
       (snd (add_selected_to_cart g)).
Proof.
  intros R.
  destruct (add_selected_to_cart_after g R) as (M & V).
  apply add_selected_to_cart_idle; rewrite M.
  - intros it Hin. rewrite V, (has_id_In _ _ Hin). simpl.
    destruct (0 <? selected (item_qty_vars g) (it_id it)); [discriminate|now apply R].
  - intros it Hin. unfold selected at 1. rewrite V, (has_id_In _ _ Hin). simpl.
    destruct (0 <? selected (item_qty_vars g) (it_id it)) eqn:P; [reflexivity|].
    fold (selected (item_qty_vars g) (it_id it)).
    apply Z.ltb_ge in P. unfold selected in *.
    destruct (item_qty_vars g !! it_id it) as [[v|]|]; try reflexivity.
    destruct (0 <? v) eqn:P'; [apply Z.ltb_lt in P'; lia | reflexivity].
Qed.

Lemma add_selected_to_cart_twice_witness :
  add_selected_to_cart (snd (add_selected_to_cart choosing)) =
  lift (show (showinfo "Info" "Pilih jumlah item terlebih dahulu."))
       (snd (add_selected_to_cart choosing)).
Proof.
  apply (add_selected_to_cart_twice choosing).
  intros it Hin. simpl in Hin.
  destruct Hin as [<-|[<-|[<-|[<-|[<-|[<-|[]]]]]]]; vm_compute; discriminate.
Defined.

(** X4. If the spinbox of a menu item holds text that is not a number
    (those of the items before it in the menu being readable),
    [add_selected_to_cart] raises [TclError] without any dialog; the
    quantities chosen for the items before it are already in the cart and
    their spinboxes back at 0, those of the items after it are not. *)
Theorem add_selected_to_cart_unreadable (g : Gui) (before after : list MenuItem)
    (it : MenuItem) :
  menu_items (self (world g)) = before ++ it :: after ->
  readable before (item_qty_vars g) ->
  item_qty_vars g !! it_id it = Some other_text ->
  fst (add_selected_to_cart g) = RaisedTclError
  /\ shown (world (snd (add_selected_to_cart g))) = shown (world g)
  /\ (forall k,
        dict_get (cart (self (world (snd (add_selected_to_cart g))))) k 0 =
        dict_get (cart (self (world g))) k 0
        + (if has_id before k then selected (item_qty_vars g) k else 0))
  /\ (forall k,
        item_qty_vars (snd (add_selected_to_cart g)) !! k =
        if has_id before k && (0 <? selected (item_qty_vars g) k)
        then Some (int_text 0) else item_qty_vars g !! k).
Proof.
  intros Hm R U.
  destruct (add_loop_readable _ (cart (self (world g))) (item_qty_vars g) false R)
    as (cart' & vars' & E & C & V).
  assert (S0 : selected (item_qty_vars g) (it_id it) = 0)
    by (unfold selected; now rewrite U).
  assert (Q : qty_of vars' (it_id it) = None).
  { unfold qty_of. rewrite V, S0. simpl. rewrite andb_false_r. now rewrite U. }
  unfold add_selected_to_cart. rewrite Hm, add_loop_app, E.
  cbn [fst snd]. simpl add_loop. rewrite Q. cbn [fst snd negb world self cart with_cart
                                                   shown item_qty_vars].
  split; [reflexivity|]. split; [reflexivity|]. split; [exact C | exact V].
Qed.

Lemma add_selected_to_cart_unreadable_witness :
  fst (add_selected_to_cart mistyped) = RaisedTclError
  /\ shown (world (snd (add_selected_to_cart mistyped))) = shown (world mistyped)
  /\ (forall k,
        dict_get (cart (self (world (snd (add_selected_to_cart mistyped))))) k 0 =
        dict_get (cart (self (world mistyped))) k 0
        + (if has_id (firstn 2 sample_menu) k
           then selected (item_qty_vars mistyped) k else 0))
  /\ (forall k,
        item_qty_vars (snd (add_selected_to_cart mistyped)) !! k =
        if has_id (firstn 2 sample_menu) k && (0 <? selected (item_qty_vars mistyped) k)
        then Some (int_text 0) else item_qty_vars mistyped !! k).
Proof.
  apply (add_selected_to_cart_unreadable mistyped (firstn 2 sample_menu)
           (skipn 3 sample_menu)
           {| it_id := 3; it_name := "Bakso"; it_category := "Makanan";
              it_price := 15000 |}).
  - reflexivity.
  - intros it Hin. simpl in Hin. destruct Hin as [<-|[<-|[]]]; vm_compute; discriminate.
  - reflexivity.
Defined.

Example add_selected_to_cart_mistyped :
  cart (self (world (snd (add_selected_to_cart mistyped)))) = [(1, 3); (4, 1); (2, 3)]
  /\ item_qty_vars (snd (add_selected_to_cart mistyped)) !! 3 = Some other_text.
Proof. split; reflexivity. Qed.

(** ** Invariants of the cart *)

Lemma in_catalog_In (menu : list MenuItem) (it : MenuItem) (v : Z) :
  In it menu -> in_catalog menu (it_id it, v) = true.
Proof.
  intros H. unfold in_catalog. apply existsb_exists. exists it.
  split; [exact H | apply Z.eqb_refl].
Qed.

Lemma dict_set_Forall (P : Z * Z -> Prop) (d : list (Z * Z)) (k v : Z) :
  Forall P d -> P (k, v) -> Forall P (dict_set d k v).
Proof.
  intros F H. apply List.Forall_forall. intros line Hin.
  apply dict_set_In in Hin as [->|Hin]; [exact H|].
  revert line Hin. now apply List.Forall_forall.
Qed.

(** The loop keeps the cart a dict of menu ids with positive quantities,
    also when it stops on a spinbox it cannot read. *)
Lemma add_loop_cart_ok (all : list MenuItem) (menu : list MenuItem) :
  forall (cart : list (Z * Z)) (vars : gmap Z IntVar) (added : bool),
    (forall it, In it menu -> In it all) ->
    NoDup (map fst cart) ->
    Forall (fun line => in_catalog all line = true /\ 0 < snd line) cart ->
    NoDup (map fst (fst (fst (snd (add_loop menu cart vars added)))))
    /\ Forall (fun line => in_catalog all line = true /\ 0 < snd line)
              (fst (fst (snd (add_loop menu cart vars added)))).
Proof.
  induction menu as [|it menu IH]; intros cart vars added Sub ND F; [now split|].
  simpl. destruct (qty_of vars (it_id it)) as [q|]; [|now split].
  rewrite positive_test. destruct (0 <? q) eqn:P.
  - apply Z.ltb_lt in P. apply IH.
    + intros x Hx. apply Sub. now right.
    + now apply dict_set_NoDup.
    + apply dict_set_Forall; [exact F|]. split.
      * apply in_catalog_In, Sub. now left.
      * simpl. pose proof (dict_get_nonneg cart (it_id it)) as G.
        assert (0 <= dict_get cart (it_id it) 0); [|lia].
        apply G. eapply List.Forall_impl; [|exact F]. now intros line [_ H].
  - apply IH; [|exact ND|exact F]. intros x Hx. apply Sub. now right.
Qed.

(** ** Every way a callback can end *)

Section Cases.

Variable P : result unit * World -> Prop.
Variable w : World.

Lemma place_order_cases io utcnow ask_buyer ask_note :
  P (show (report EmptyCartError) w) ->
  P (show (report MissingBuyerError) w) ->
  (forall o : OrderRecord,
     o = new_order (self w) utcnow ask_buyer ask_note ->
     cart (self w) <> [] ->
     P (Return tt,
        {| self := with_cart [] (with_orders (orders (self w) ++ [o]) (self w));
           disk := with_orders_json (Holds (orders (self w) ++ [o])) (disk w);
           shown := shown w ++
                    [showinfo "Sukses"
                       ("Pesanan diterima! Total Rp " +:+ thousands (total o))] |})
     /\ P (Raise OSError,
           {| self := with_orders (orders (self w) ++ [o]) (self w);
              disk := disk w; shown := shown w |})
     /\ P (Raise OSError,
           {| self := with_orders (orders (self w) ++ [o]) (self w);
              disk := with_orders_json Garbled (disk w); shown := shown w |})) ->
  P (place_order io utcnow ask_buyer ask_note w).
Proof.
  intros He Hb Ha. destruct (decide (cart (self w) = [])) as [C|N].
  - now rewrite place_order_empty_cart.
  - destruct (truthy ask_buyer) eqn:T.
    + pose proof (place_order_accepted io utcnow ask_buyer ask_note w N T) as E.
      cbv zeta in E. rewrite E.
      destruct (Ha _ eq_refl N) as (H1 & H2 & H3). now destruct (io ORDERS_FILE).
    + now rewrite place_order_no_buyer.
Qed.

Lemma open_admin_panel_cases :
  (forall os, orders_json (disk w) = Holds os ->
     P (Return tt,
        {| self := with_orders os (self w); disk := disk w;
           shown := shown w ++ [Toplevel "Panel Admin - Daftar Pesanan"] |})) ->
  (forall e, (forall os, orders_json (disk w) <> Holds os) ->
     P (Raise e,
        {| self := self w; disk := disk w;
           shown := shown w ++ [Toplevel "Panel Admin - Daftar Pesanan"] |})) ->
  P (open_admin_panel w).
Proof.
  intros Hr He. unfold open_admin_panel, load_orders, bind, show, get_disk, json_load.
  cbn. destruct (orders_json (disk w)) eqn:O; cbn.
  - apply He. discriminate.
  - apply He. discriminate.
  - now apply Hr.
Qed.

Lemma open_admin_login_cases ask_pw :
  P (Return tt, w) ->
  P (show (showerror "Gagal" "Password salah.") w) ->
  (forall pw, ask_pw = Some pw -> authenticate (config (self w)) pw = true ->
              P (open_admin_panel w)) ->
  P (open_admin_login ask_pw w).
Proof.
  intros Hn Hw Hr. destruct ask_pw as [pw|]; [|exact Hn].
  destruct (authenticate (config (self w)) pw) eqn:A.
  - rewrite (open_admin_login_right _ _ A). now apply (Hr pw).
  - now rewrite (open_admin_login_wrong _ _ A).
Qed.

Lemma _admin_refresh_cases :
  (forall os, orders_json (disk w) = Holds os ->
     P (Return tt,
        {| self := with_orders os (self w); disk := disk w;
           shown := shown w ++ [showinfo "Sukses" "Daftar pesanan diperbarui."] |})) ->
  (forall e, (forall os, orders_json (disk w) <> Holds os) -> P (Raise e, w)) ->
  P (_admin_refresh w).
Proof.
  intros Hr He. unfold _admin_refresh, load_orders, bind, show, get_disk, json_load.
  destruct (orders_json (disk w)) eqn:O; cbn.
  - apply He. discriminate.
  - apply He. discriminate.
  - now apply Hr.
Qed.

Lemma _admin_clear_orders_cases io askyesno :
  P (Return tt, w) ->
  P (Return tt,
     {| self := with_orders [] (self w);
        disk := with_orders_json (Holds []) (disk w);
        shown := shown w ++ [showinfo "Sukses" "Daftar pesanan diperbarui.";
                             showinfo "Sukses" "Semua pesanan telah dihapus."] |}) ->
  P (Raise OSError,
     {| self := with_orders [] (self w); disk := disk w; shown := shown w |}) ->
  P (Raise OSError,
     {| self := with_orders [] (self w);
        disk := with_orders_json Garbled (disk w); shown := shown w |}) ->
  P (_admin_clear_orders io askyesno w).
Proof.
  intros Hn Hy Ho Hd. unfold _admin_clear_orders.
  destruct askyesno; [|exact Hn]. cbn [negb].
  unfold bind, get_self, set_self, save_orders, json_dump, _admin_refresh, load_orders,
    get_disk, set_disk, show, json_load, raise.
  destruct (io ORDERS_FILE); cbn; [|exact Ho|exact Hd].
  rewrite <- app_assoc. exact Hy.
Qed.

Lemma _admin_change_password_cases io ask_new ask_confirm :
  P (show (report EmptyPasswordError) w) ->
  P (show (report MismatchError) w) ->
  (forall p cfg, ask_new = Some p -> ask_confirm = Some p -> p <> "" ->
     cfg = <[admin_password_sha256 := hash_password p]> (config (self w)) ->
     P (Return tt,
        {| self := with_config cfg (self w);
           disk := with_config_json (Holds cfg) (disk w);
           shown := shown w ++ [showinfo "Sukses" "Password admin berhasil diperbarui."] |})
     /\ P (Raise OSError,
           {| self := with_config cfg (self w); disk := disk w; shown := shown w |})
     /\ P (Raise OSError,
           {| self := with_config cfg (self w);
              disk := with_config_json Garbled (disk w); shown := shown w |})) ->
  P (_admin_change_password io ask_new ask_confirm w).
Proof.
  intros He Hm Ha. destruct (truthy ask_new) eqn:T.
  - destruct (decide (ask_new = ask_confirm)) as [E|N].
    + destruct ask_new as [p|]; [|discriminate T]. subst ask_confirm.
      apply truthy_Some in T.
      pose proof (change_password_agrees io p w T) as A. cbv zeta in A. rewrite A.
      destruct (Ha p _ eq_refl eq_refl T eq_refl) as (H1 & H2 & H3).
      now destruct (io CONFIG_FILE).
    + now rewrite change_password_differs.
  - now rewrite change_password_empty.
Qed.

End Cases.

Lemma lift_world (m : M unit) (g : Gui) : world (snd (lift m g)) = snd (m (world g)).
Proof. unfold lift. now destruct (m (world g)) as [[?|?] ?]. Qed.

Lemma lift_rest (m : M unit) (g : Gui) :
  item_qty_vars (snd (lift m g)) = item_qty_vars g
  /\ exports (snd (lift m g)) = exports g.
Proof. unfold lift. now destruct (m (world g)) as [[?|?] ?]. Qed.

Lemma lift_Returned (m : M unit) (g : Gui) :
  fst (lift m g) = Returned <-> fst (m (world g)) = Return tt.
Proof.
  unfold lift. destruct (m (world g)) as [[[]|e] w']; simpl; split; congruence.
Qed.

Lemma panels_show (w : World) (e : ui_event) :
  panels {| self := self w; disk := disk w; shown := shown w ++ [e] |}
  = (panels w + match e with Toplevel _ => 1 | _ => 0 end)%nat.
Proof.
  unfold panels. cbn [shown]. rewrite List.filter_app, length_app.
  now destruct e.
Qed.

Lemma panels_same (a : BazaarApp) (d : Disk) (w : World) :
  panels {| self := a; disk := d; shown := shown w |} = panels w.
Proof. reflexivity. Qed.

Ltac count_panels :=
  cbn; unfold panels; cbn; rewrite ?List.filter_app, ?length_app; cbn; lia.

Ltac by_cases :=
  match goal with
  | |- context [place_order ?io ?t ?b ?n ?w] =>
      pattern (place_order io t b n w); apply place_order_cases
  | |- context [open_admin_login ?a ?w] =>
      pattern (open_admin_login a w); apply open_admin_login_cases
  | |- context [open_admin_panel ?w] =>
      pattern (open_admin_panel w); apply open_admin_panel_cases
  | |- context [_admin_refresh ?w] =>
      pattern (_admin_refresh w); apply _admin_refresh_cases
  | |- context [_admin_clear_orders ?io ?y ?w] =>
      pattern (_admin_clear_orders io y w); apply _admin_clear_orders_cases
  | |- context [_admin_change_password ?io ?a ?c ?w] =>
      pattern (_admin_change_password io a c w); apply _admin_change_password_cases
  end.

(** ** What the callbacks never do *)

(** X5. The admin window is created by a login whose password hashes to
    the stored hash, once per such login, and by no other callback,
    whatever the state and the answers given to the dialogs. *)
Theorem panel_only_after_login (APP_DIR : string) (env : environment) (c : command)
    (g : Gui) :
  panels (world (snd (run APP_DIR env c g))) =
  (panels (world g)
   + match c with
     | Admin (Some pw) => if authenticate (config (self (world g))) pw then 1 else 0
     | _ => 0
     end)%nat.
Proof.
  destruct c as [cat| | |utcnow b n|ask_pw| |stamp|yes|a cf]; simpl run;
    rewrite ?lift_world.
  - count_panels.
  - unfold add_selected_to_cart.
    destruct (add_loop _ _ _ _) as [[] [[c' v'] []]]; cbn [fst snd negb];
      rewrite ?lift_world; count_panels.
  - count_panels.
  - by_cases; [| |intros o _ _; repeat split]; count_panels.
  - destruct ask_pw as [pw|]; [|count_panels].
    destruct (authenticate (config (self (world g))) pw) eqn:A.
    + rewrite (open_admin_login_right _ _ A). by_cases; intros; count_panels.
    + rewrite (open_admin_login_wrong _ _ A). count_panels.
  - by_cases; intros; count_panels.
  - unfold _admin_export_json.
    destruct (export_fault env), (orders_json (disk (world g)));
      rewrite ?lift_world; count_panels.
  - by_cases; count_panels.
  - by_cases; [| |intros p cfg _ _ _ _; repeat split]; count_panels.
Qed.

Lemma add_selected_to_cart_world (g : Gui) :
  exists (c' : list (Z * Z)) (sh : list ui_event),
    world (snd (add_selected_to_cart g)) =
    {| self := with_cart c' (self (world g)); disk := disk (world g); shown := sh |}
    /\ c' = fst (fst (snd (add_loop (menu_items (self (world g))) (cart (self (world g)))
                                    (item_qty_vars g) false))).
Proof.
  unfold add_selected_to_cart.
  destruct (add_loop _ _ _ _) as [[] [[c' v'] []]]; cbn [fst snd negb];
    rewrite ?lift_world; cbn [world show snd self disk shown]; eauto.
Qed.

Lemma _admin_export_json_world (APP_DIR stamp : string) (fault : write_fault) (g : Gui) :
  exists sh : list ui_event,
    world (snd (_admin_export_json APP_DIR stamp fault g)) =
    {| self := self (world g); disk := disk (world g); shown := sh |}.
Proof.
  unfold _admin_export_json.
  destruct fault, (orders_json (disk (world g))); rewrite ?lift_world;
    cbn [snd world show self disk shown]; try (eexists; reflexivity);
    exists (shown (world g)); now destruct (world g).
Qed.

(** X6. No callback changes the menu, in memory or in [menu.json]; and
    the credential, in memory or in [config.json], is changed by nothing
    but a password change with a non-empty new password and an equal
    confirmation, which stores the digest of that password. *)
Theorem credential_changed_only_by_password_change (APP_DIR : string)
    (env : environment) (c : command) (g : Gui) :
  let w := world g in
  let w' := world (snd (run APP_DIR env c g)) in
  menu_items (self w') = menu_items (self w)
  /\ menu_json (disk w') = menu_json (disk w)
  /\ ((config (self w') = config (self w) /\ config_json (disk w') = config_json (disk w))
      \/ exists p : string,
           c = Ganti_Password_Admin (Some p) (Some p) /\ p <> ""
           /\ config (self w') = <[admin_password_sha256 := hash_password p]> (config (self w))
           /\ (config_json (disk w') = Holds (config (self w'))
               \/ config_json (disk w') = config_json (disk w)
               \/ config_json (disk w') = Garbled)).
Proof.
  cbv zeta.
  destruct c as [cat| | |utcnow b n|ask_pw| |stamp|yes|a cf]; simpl run;
    rewrite ?lift_world.
  - cbn. auto.
  - destruct (add_selected_to_cart_world g) as (c' & sh & -> & _). cbn. auto.
  - cbn. auto.
  - by_cases; [| |intros o _ _; repeat split]; cbn; auto.
  - by_cases; [| |intros pw _ _; by_cases; intros]; cbn; auto.
  - by_cases; intros; cbn; auto.
  - destruct (_admin_export_json_world APP_DIR stamp (export_fault env) g) as (sh & ->).
    cbn. auto.
  - by_cases; cbn; auto.
  - by_cases; [| |intros p cfg -> -> Hp ->; repeat split]; cbn; auto;
      right; exists p; auto 10.
Qed.

(** X7. The order log in memory changes only in three ways: placing an
    order appends one record to it, a login or a refresh replaces it by
    the log that [orders.json] holds, and clearing empties it; every other
    callback leaves it as it is. [orders.json] is written only by placing
    an order and by clearing. *)
Theorem order_log_changes (APP_DIR : string) (env : environment) (c : command)
    (g : Gui) :
  let w := world g in
  let w' := world (snd (run APP_DIR env c g)) in
  match c with
  | Pesan_Sekarang utcnow ask_buyer ask_note =>
      orders (self w') = orders (self w)
      \/ orders (self w') = orders (self w) ++ [new_order (self w) utcnow ask_buyer ask_note]
  | Admin _ | Refresh =>
      orders (self w') = orders (self w) \/ orders_json (disk w) = Holds (orders (self w'))
  | Hapus_Semua_Pesanan _ =>
      orders (self w') = orders (self w) \/ orders (self w') = []
  | _ => orders (self w') = orders (self w)
  end
  /\ match c with
     | Pesan_Sekarang _ _ _ | Hapus_Semua_Pesanan _ =>
         orders_json (disk w') = orders_json (disk w)
         \/ orders_json (disk w') = Garbled
         \/ orders_json (disk w') = Holds (orders (self w'))
     | _ => orders_json (disk w') = orders_json (disk w)
     end.
Proof.
  cbv zeta.
  destruct c as [cat| | |utcnow b n|ask_pw| |stamp|yes|a cf]; simpl run;
    rewrite ?lift_world.
  - cbn. auto.
  - destruct (add_selected_to_cart_world g) as (c' & sh & -> & _). cbn. auto.
  - cbn. auto.
  - by_cases; [| |intros o -> _; repeat split]; cbn; auto.
  - by_cases; [| |intros pw _ _; by_cases; intros]; cbn; auto.
  - by_cases; intros; cbn; auto.
  - destruct (_admin_export_json_world APP_DIR stamp (export_fault env) g) as (sh & ->).
    cbn. auto.
  - by_cases; cbn; auto.
  - by_cases; [| |intros p cfg _ _ _ _; repeat split]; cbn; auto.
Qed.

(** ** Invariants of the running application *)

Lemma cart_ok_same (a a' : BazaarApp) :
  menu_items a' = menu_items a -> cart a' = cart a \/ cart a' = [] ->
  cart_ok a -> cart_ok a'.
Proof.
  unfold cart_ok. intros -> [->| ->]; [auto|]. intros _. split; constructor.
Qed.

Lemma run_cart_ok (APP_DIR : string) (env : environment) (c : command) (g : Gui) :
  cart_ok (self (world g)) -> cart_ok (self (world (snd (run APP_DIR env c g)))).
Proof.
  intros Ok.
  destruct c as [cat| | |utcnow b n|ask_pw| |stamp|yes|a cf]; simpl run;
    rewrite ?lift_world.
  - exact Ok.
  - destruct (add_selected_to_cart_world g) as (c' & sh & -> & ->).
    destruct Ok as [ND F]. unfold cart_ok. cbn [self with_cart cart menu_items].
    now apply add_loop_cart_ok.
  - now apply (cart_ok_same (self (world g))); cbn; auto.
  - by_cases; [| |intros o _ _; repeat split];
      now apply (cart_ok_same (self (world g))); cbn; auto.
  - by_cases; [| |intros pw _ _; by_cases; intros];
      now apply (cart_ok_same (self (world g))); cbn; auto.
  - by_cases; intros; now apply (cart_ok_same (self (world g))); cbn; auto.
  - destruct (_admin_export_json_world APP_DIR stamp (export_fault env) g) as (sh & ->).
    exact Ok.
  - by_cases; now apply (cart_ok_same (self (world g))); cbn; auto.
  - by_cases; [| |intros p cfg _ _ _ _; repeat split];
      now apply (cart_ok_same (self (world g))); cbn; auto.
Qed.

(** X8. Whatever the user does and whatever fails, the cart stays a dict
    (no item id twice) whose ids are all in the menu and whose quantities
    are all positive: if that holds of a state it holds after any sequence
    of callbacks run from it. *)
Theorem mainloop_cart_ok (APP_DIR : string) (events : list (environment * command))
    (g : Gui) :
  cart_ok (self (world g)) ->
  cart_ok (self (world (mainloop APP_DIR events g))).
Proof.
  revert g. induction events as [|[env c] events IH]; intros g Ok; [exact Ok|].
  simpl. apply IH. now apply run_cart_ok.
Qed.

Lemma mainloop_cart_ok_witness :
  cart_ok (self (world (mainloop "/home/kelas"
                          [ (faultless, Tambah_ke_Keranjang);
                            (read_only, Pesan_Sekarang "2024-05-17T09:30:00" (Some "Ana") None);
                            (faultless, Tambah_ke_Keranjang) ]
                          mistyped))).
Proof.
  apply (mainloop_cart_ok "/home/kelas"
           [ (faultless, Tambah_ke_Keranjang);
             (read_only, Pesan_Sekarang "2024-05-17T09:30:00" (Some "Ana") None);
             (faultless, Tambah_ke_Keranjang) ]
           mistyped).
  split.
  - apply (bool_decide_unpack _). vm_compute. exact I.
  - repeat constructor; simpl; lia.
Defined.

Lemma run_mirrors_cases (APP_DIR : string) (env : environment) (c : command) (g : Gui) :
  mirrors (world g) ->
  mirrors (world (snd (run APP_DIR env c g)))
  \/ (exists e, fst (run APP_DIR env c g) = Raised e).
Proof.
  intros (Hm & Ho & Hc). unfold mirrors.
  destruct c as [cat| | |utcnow b n|ask_pw| |stamp|yes|a cf]; simpl run.
  - left. cbn. auto.
  - left. destruct (add_selected_to_cart_world g) as (c' & sh & -> & _). cbn. auto.
  - left. rewrite lift_world. cbn. auto.
  - unfold lift. by_cases; [| |intros o _ _; repeat split]; cbn; eauto.
  - unfold lift. by_cases; [| |intros pw _ _; by_cases; intros]; cbn; eauto.
  - unfold lift. by_cases; intros; cbn; eauto.
  - left. destruct (_admin_export_json_world APP_DIR stamp (export_fault env) g) as (sh & ->).
    cbn. auto.
  - unfold lift. by_cases; cbn; eauto.
  - unfold lift. by_cases; [| |intros p cfg _ _ _ _; repeat split]; cbn; eauto.
Qed.

(** X9. A callback that returns normally, or stops on an unreadable
    spinbox, leaves the memory in step with the disk: if [menu_items],
    [orders] and [config] are what the three documents hold before it,
    they are afterwards. (Only a callback that raises an I/O error can
    break this.) *)
Theorem run_keeps_mirror (APP_DIR : string) (env : environment) (c : command)
    (g : Gui) :
  mirrors (world g) ->
  (forall e, fst (run APP_DIR env c g) <> Raised e) ->
  mirrors (world (snd (run APP_DIR env c g))).
Proof.
  intros M N. destruct (run_mirrors_cases APP_DIR env c g M) as [H|[e H]];
    [exact H | now apply N in H].
Qed.

Lemma run_keeps_mirror_witness :
  mirrors (world (snd (run "/home/kelas" faultless
                         (Pesan_Sekarang "2024-05-17T09:30:00" (Some "Ana") None)
                         choosing))).
Proof.
  apply (run_keeps_mirror "/home/kelas" faultless
           (Pesan_Sekarang "2024-05-17T09:30:00" (Some "Ana") None) choosing).
  - repeat split.
  - intros e. vm_compute. discriminate.
Defined.

(** ** Start-up *)

(** X10. [ensure_files_exist] never touches a file that exists, parseable
    or not: after it, whatever the writes did, each of the three documents
    is as it was unless it was missing; it changes nothing in memory and
    shows nothing. It either raises [OSError] or returns with the three
    files present. *)
Theorem ensure_files_exist_keeps_existing io (w : World) :
  let r := ensure_files_exist io w in
  (menu_json (disk (snd r)) = menu_json (disk w) \/ menu_json (disk w) = Missing)
  /\ (orders_json (disk (snd r)) = orders_json (disk w) \/ orders_json (disk w) = Missing)
  /\ (config_json (disk (snd r)) = config_json (disk w) \/ config_json (disk w) = Missing)
  /\ self (snd r) = self w
  /\ shown (snd r) = shown w
  /\ (fst r = Raise OSError
      \/ (fst r = Return tt
          /\ path_exists (menu_json (disk (snd r))) = true
          /\ path_exists (orders_json (disk (snd r))) = true
          /\ path_exists (config_json (disk (snd r))) = true)).
Proof.
  cbv zeta. unfold ensure_files_exist. cbv zeta. fold (hash_password "admin123").
  generalize (hash_password "admin123") as h. intros h.
  destruct w as [app [mj oj cj] sh].
  unfold bind, get_disk, json_dump, set_disk, ret, raise. cbn [disk menu_json].
  destruct mj; [destruct (io MENU_FILE)| |]; cbn;
    (destruct oj; [destruct (io ORDERS_FILE)| |]); cbn;
    (destruct cj; [destruct (io CONFIG_FILE)| |]); cbn; auto 10.
Qed.





(** ** Failed writes, and what the next callback makes of them *)

(** X13. When [orders.json] cannot be opened for writing, the record that
    [place_order] has appended in memory does not survive the next read of
    the log: a refresh, or the admin panel opening, puts back the log that
    the file holds. The cart still holds the order. *)
Theorem unsaved_order_dropped_by_reload io utcnow (b : string) ask_note (w : World) :
  orders_json (disk w) = Holds (orders (self w)) ->
  cart (self w) <> [] ->
  b <> "" ->
  io ORDERS_FILE = OpenFails ->
  let w1 := snd (place_order io utcnow (Some b) ask_note w) in
  orders (self w1) = orders (self w) ++ [new_order (self w) utcnow (Some b) ask_note]
  /\ fst (_admin_refresh w1) = Return tt
  /\ orders (self (snd (_admin_refresh w1))) = orders (self w)
  /\ fst (open_admin_panel w1) = Return tt
  /\ orders (self (snd (open_admin_panel w1))) = orders (self w)
  /\ cart (self (snd (_admin_refresh w1))) = cart (self w).
Proof.
  intros Hs C B F.
  pose proof (place_order_accepted io utcnow (Some b) ask_note w C
                (proj2 (truthy_Some b) B)) as P.
  cbv zeta in P. rewrite F in P. cbv zeta. rewrite P. cbn [snd].
  unfold _admin_refresh, open_admin_panel, load_orders, bind, get_disk, json_load, show,
    get_self, set_self. cbn [disk self shown]. rewrite Hs. cbn. auto 10.
Qed.

Lemma unsaved_order_dropped_by_reload_witness :
  let w1 := snd (place_order orders_unwritable "2024-05-17T09:30:00" (Some "Ana") None
                   shopping) in
  orders (self w1) =
    orders (self shopping)
    ++ [new_order (self shopping) "2024-05-17T09:30:00" (Some "Ana") None]
  /\ fst (_admin_refresh w1) = Return tt
  /\ orders (self (snd (_admin_refresh w1))) = orders (self shopping)
  /\ fst (open_admin_panel w1) = Return tt
  /\ orders (self (snd (open_admin_panel w1))) = orders (self shopping)
  /\ cart (self (snd (_admin_refresh w1))) = cart (self shopping).
Proof.
  apply (unsaved_order_dropped_by_reload orders_unwritable "2024-05-17T09:30:00" "Ana"
           None shopping);
    [reflexivity | discriminate | discriminate | reflexivity].
Defined.

(** X14. Confirmed, and [orders.json] being written, the clearing of the
    orders returns after two dialogs with no order left, in memory or in
    [orders.json], whatever the file held before (even nothing parseable);
    the cart, the menu and the credential are untouched. Declined, it
    changes nothing. *)
Theorem clear_orders_confirmed io (w : World) :
  io ORDERS_FILE = NoFault ->
  _admin_clear_orders io true w =
    (Return tt,
     {| self := with_orders [] (self w);
        disk := with_orders_json (Holds []) (disk w);
        shown := shown w ++ [showinfo "Sukses" "Daftar pesanan diperbarui.";
                             showinfo "Sukses" "Semua pesanan telah dihapus."] |})
  /\ _admin_clear_orders io false w = (Return tt, w).
Proof.
  intros F. split; [|reflexivity].
  unfold _admin_clear_orders, bind, get_self, set_self, save_orders, json_dump,
    _admin_refresh, load_orders, get_disk, set_disk, show, json_load.
  rewrite F. cbn. now rewrite <- app_assoc.
Qed.

Lemma clear_orders_confirmed_witness :
  _admin_clear_orders no_fault true one_sale =
    (Return tt,
     {| self := with_orders [] (self one_sale);
        disk := with_orders_json (Holds []) (disk one_sale);
        shown := shown one_sale ++ [showinfo "Sukses" "Daftar pesanan diperbarui.";
                                    showinfo "Sukses" "Semua pesanan telah dihapus."] |})
  /\ _admin_clear_orders no_fault false one_sale = (Return tt, one_sale).
Proof. apply (clear_orders_confirmed no_fault one_sale). reflexivity. Defined.

(** X15. Confirmed while [orders.json] cannot be opened for writing, the
    clearing raises with the log in memory already emptied and the file
    intact, and shows nothing; the next refresh brings the orders back. *)
Theorem clear_orders_unsaved io (w : World) (os : list OrderRecord) :
  orders_json (disk w) = Holds os ->
  io ORDERS_FILE = OpenFails ->
  let w1 := snd (_admin_clear_orders io true w) in
  fst (_admin_clear_orders io true w) = Raise OSError
  /\ orders (self w1) = []
  /\ orders_json (disk w1) = Holds os
  /\ shown w1 = shown w
  /\ fst (_admin_refresh w1) = Return tt
  /\ orders (self (snd (_admin_refresh w1))) = os.
Proof.
  intros Hs F. cbv zeta.
  unfold _admin_clear_orders, bind, get_self, set_self, save_orders, json_dump, raise.
  rewrite F. cbn.
  unfold _admin_refresh, load_orders, bind, get_disk, json_load, show, get_self, set_self.
  cbn. rewrite Hs. cbn. auto 10.
Qed.

Lemma clear_orders_unsaved_witness :
  let w1 := snd (_admin_clear_orders orders_unwritable true one_sale) in
  fst (_admin_clear_orders orders_unwritable true one_sale) = Raise OSError
  /\ orders (self w1) = []
  /\ orders_json (disk w1) = Holds (orders (self one_sale))
  /\ shown w1 = shown one_sale
  /\ fst (_admin_refresh w1) = Return tt
  /\ orders (self (snd (_admin_refresh w1))) = orders (self one_sale).
Proof.
  apply (clear_orders_unsaved orders_unwritable one_sale (orders (self one_sale)));
    reflexivity.
Defined.

(** X16. When [config.json] cannot be opened for writing, a password
    change with a non-empty password and an equal confirmation raises
    without a dialog, yet the running application has switched to the new
    password: the check accepts it and rejects every password with another
    digest, while [config.json] still holds the old credential, which is
    what the next start will read. *)
Theorem change_password_unsaved io (p old : string) (w : World)
    (cfg : gmap string string) :
  p <> "" ->
  io CONFIG_FILE = OpenFails ->
  config_json (disk w) = Holds cfg ->
  hash_password old <> hash_password p ->
  let w1 := snd (_admin_change_password io (Some p) (Some p) w) in
  fst (_admin_change_password io (Some p) (Some p) w) = Raise OSError
  /\ shown w1 = shown w
  /\ authenticate (config (self w1)) p = true
  /\ authenticate (config (self w1)) old = false
  /\ load_config w1 = (Return cfg, w1).
Proof.
  intros P F Hc D. pose proof (change_password_agrees io p w P) as C.
  cbv zeta in C. rewrite F in C. cbv zeta. rewrite C. cbn [fst snd shown self config
                                                          with_config].
  assert (S : stored_hash (<[admin_password_sha256 := hash_password p]> (config (self w)))
              = hash_password p).
  { apply stored_hash_Some. apply lookup_insert_eq. }
  split; [reflexivity|]. split; [reflexivity|].
  split; [apply authenticate_true; now rewrite S|].
  split; [apply authenticate_false; now rewrite S|].
  unfold load_config, bind, get_disk, json_load. cbn [disk]. now rewrite Hc.
Qed.

Lemma change_password_unsaved_witness :
  let w1 := snd (_admin_change_password (fun _ => OpenFails) (Some "kantin-2024")
                   (Some "kantin-2024") started) in
  fst (_admin_change_password (fun _ => OpenFails) (Some "kantin-2024")
         (Some "kantin-2024") started) = Raise OSError
  /\ shown w1 = shown started
  /\ authenticate (config (self w1)) "kantin-2024" = true
  /\ authenticate (config (self w1)) "admin123" = false
  /\ load_config w1 = (Return (config (self started)), w1).
Proof.
  apply (change_password_unsaved (fun _ => OpenFails) "kantin-2024" "admin123" started
           (config (self started))).
  - discriminate.
  - reflexivity.
  - reflexivity.
  - vm_compute. discriminate.
Defined.

(** ** The cart table and the order *)

Lemma view_line_resolve (menu : list MenuItem) (acc : list cart_row * Z) (line : Z * Z) :
  view_line menu acc line =
  match resolve menu line with
  | None => acc
  | Some e =>
      (fst acc ++ [ {| row_name := oi_name e; row_qty := oi_qty e;
                       row_subtotal := "Rp " +:+ thousands (oi_price e * oi_qty e) |} ],
       snd acc + oi_price e * oi_qty e)
  end.
Proof. unfold view_line, resolve. destruct (find_item menu (fst line)); reflexivity. Qed.

Lemma cost_cons (e : OrderItem) (entries : list OrderItem) :
  cost (e :: entries) = oi_qty e * oi_price e + cost entries.
Proof. reflexivity. Qed.

Lemma fold_view_line (menu : list MenuItem) (lines : list (Z * Z)) :
  forall acc : list cart_row * Z,
    fold_left (view_line menu) lines acc =
    (fst acc ++ map (fun e => {| row_name := oi_name e; row_qty := oi_qty e;
                                 row_subtotal := "Rp " +:+ thousands (oi_price e * oi_qty e) |})
                    (omap (resolve menu) lines),
     snd acc + cost (omap (resolve menu) lines)).
Proof.
  induction lines as [|line lines IH]; intros [rows sum].
  - cbn. rewrite app_nil_r. f_equal. lia.
  - cbn [fold_left]. rewrite IH, omap_resolve_cons, view_line_resolve.
    destruct (resolve menu line) as [e|]; [|reflexivity].
    rewrite cost_cons. cbn [fst snd map]. rewrite <- app_assoc. cbn [app].
    f_equal. lia.
Qed.

(** X17. The cart table shows what the order will record: for a
    non-empty cart and a buyer who gives a name, the record that
    [place_order] appends has one item per row of [refresh_cart_view], with
    the same name, quantity and subtotal, and its total is the total under
    the table. *)
Theorem cart_view_matches_order io utcnow (b : string) ask_note (w : World) :
  cart (self w) <> [] ->
  b <> "" ->
  exists o : OrderRecord,
    orders (self (snd (place_order io utcnow (Some b) ask_note w))) = orders (self w) ++ [o]
    /\ snd (refresh_cart_view (self w)) = "Total: Rp " +:+ thousands (total o)
    /\ fst (refresh_cart_view (self w)) =
       map (fun e => {| row_name := oi_name e; row_qty := oi_qty e;
                        row_subtotal := "Rp " +:+ thousands (oi_price e * oi_qty e) |})
           (items o).
Proof.
  intros C B. exists (new_order (self w) utcnow (Some b) ask_note).
  pose proof (place_order_accepted io utcnow (Some b) ask_note w C
                (proj2 (truthy_Some b) B)) as P.
  cbv zeta in P. rewrite P.
  destruct (new_order_total (self w) utcnow (Some b) ask_note) as [T I].
  unfold refresh_cart_view. rewrite fold_view_line. cbn [fst snd app].
  rewrite T, I, Z.add_0_l.
  split; [destruct (io ORDERS_FILE); reflexivity | split; reflexivity].
Qed.

Lemma cart_view_matches_order_witness :
  exists o : OrderRecord,
    orders (self (snd (place_order no_fault "2024-05-17T09:30:00" (Some "Ana") None
                         shopping)))
    = orders (self shopping) ++ [o]
    /\ snd (refresh_cart_view (self shopping)) = "Total: Rp " +:+ thousands (total o)
    /\ fst (refresh_cart_view (self shopping)) =
       map (fun e => {| row_name := oi_name e; row_qty := oi_qty e;
                        row_subtotal := "Rp " +:+ thousands (oi_price e * oi_qty e) |})
           (items o).
Proof.
  apply (cart_view_matches_order no_fault "2024-05-17T09:30:00" "Ana" None shopping);
    discriminate.
Defined.

Example refresh_cart_view_shopping :
  refresh_cart_view (self shopping) =
  ([ {| row_name := "Nasi Goreng"; row_qty := 2; row_subtotal := "Rp 24,000" |};
     {| row_name := "Es Teh Manis"; row_qty := 1; row_subtotal := "Rp 5,000" |} ],
   "Total: Rp 29,000").
Proof. reflexivity. Qed.

Lemma resolve_unknown (menu : list MenuItem) (line : Z * Z) :
  in_catalog menu line = false -> resolve menu line = None.
Proof.
  unfold in_catalog, resolve, find_item. intros H.
  destruct (find _ menu) as [item|] eqn:F; [|reflexivity].
  apply find_some in F as [Hin He].
  assert (E : existsb (fun item => it_id item =? fst line) menu = true)
    by (apply existsb_exists; eauto).
  congruence.
Qed.

Lemma omap_resolve_filter (menu : list MenuItem) (lines : list (Z * Z)) :
  omap (resolve menu) lines = omap (resolve menu) (List.filter (in_catalog menu) lines).
Proof.
  induction lines as [|line lines IH]; [reflexivity|].
  rewrite omap_resolve_cons. cbn [List.filter].
  destruct (in_catalog menu line) eqn:E.
  - rewrite omap_resolve_cons. now rewrite IH.
  - now rewrite (resolve_unknown _ _ E).
Qed.

Lemma forallb_filter_same {A : Type} (f : A -> bool) (l : list A) :
  forallb f (List.filter f l) = true.
Proof.
  induction l as [|x l IH]; [reflexivity|]. cbn [List.filter].
  destruct (f x) eqn:E; [|exact IH]. cbn. now rewrite E.
Qed.

(** X18. Cart lines whose id is no longer in the menu are dropped without
    notice: for any non-empty cart and a buyer who gives a name, the
    appended record has one item per cart line whose id the menu has, in
    cart order, and its total counts those lines only. A cart with no such
    line still yields a record, with no item and total 0. *)
Theorem place_order_drops_unknown_ids io utcnow (b : string) ask_note (w : World) :
  cart (self w) <> [] ->
  b <> "" ->
  exists o : OrderRecord,
    orders (self (snd (place_order io utcnow (Some b) ask_note w))) = orders (self w) ++ [o]
    /\ Forall2 (fun line e =>
                  oi_id e = fst line /\ oi_qty e = snd line /\
                  oi_price e = catalog_price (menu_items (self w)) (fst line))
               (List.filter (in_catalog (menu_items (self w))) (cart (self w)))
               (items o)
    /\ total o = cart_total (menu_items (self w))
                   (List.filter (in_catalog (menu_items (self w))) (cart (self w)))
    /\ (List.filter (in_catalog (menu_items (self w))) (cart (self w)) = [] ->
        items o = [] /\ total o = 0).
Proof.
  intros C B. exists (new_order (self w) utcnow (Some b) ask_note).
  pose proof (place_order_accepted io utcnow (Some b) ask_note w C
                (proj2 (truthy_Some b) B)) as P.
  cbv zeta in P. rewrite P.
  destruct (new_order_total (self w) utcnow (Some b) ask_note) as [T I].
  rewrite T, I, omap_resolve_filter.
  destruct (omap_resolve_valid (menu_items (self w))
              (List.filter (in_catalog (menu_items (self w))) (cart (self w)))
              (forallb_filter_same _ _)) as [V1 V2].
  split; [destruct (io ORDERS_FILE); reflexivity|].
  split.
  - eapply Forall2_impl; [exact V1|]. cbv beta. intros line e (? & ? & ? & _). auto.
  - split; [exact V2|]. intros ->. split; reflexivity.
Qed.

Lemma place_order_drops_unknown_ids_witness :
  exists o : OrderRecord,
    orders (self (snd (place_order no_fault "2024-05-17T09:30:00" (Some "Ana") None
                         stale_cart)))
    = orders (self stale_cart) ++ [o]
    /\ Forall2 (fun line e =>
                  oi_id e = fst line /\ oi_qty e = snd line /\
                  oi_price e = catalog_price (menu_items (self stale_cart)) (fst line))
               (List.filter (in_catalog (menu_items (self stale_cart)))
                            (cart (self stale_cart)))
               (items o)
    /\ total o = cart_total (menu_items (self stale_cart))
                   (List.filter (in_catalog (menu_items (self stale_cart)))
                                (cart (self stale_cart)))
    /\ (List.filter (in_catalog (menu_items (self stale_cart))) (cart (self stale_cart)) = [] ->
        items o = [] /\ total o = 0).
Proof.
  apply (place_order_drops_unknown_ids no_fault "2024-05-17T09:30:00" "Ana" None
           stale_cart); discriminate.
Defined.

Example place_order_stale_cart :
  orders (self (snd (place_order no_fault "2024-05-17T09:30:00" (Some "Ana") None
                       stale_cart)))
  = [ {| timestamp := "2024-05-17T09:30:00Z"; buyer := "Ana"; note := "";
         items := [ {| oi_id := 4; oi_name := "Es Teh Manis"; oi_price := 5000;
                       oi_qty := 1 |} ];
         total := 5000 |} ].
Proof. reflexivity. Qed.

(** An order for a cart whose only id has left the menu. *)
Example place_order_vanished_item :
  orders (self (snd (place_order no_fault "2024-05-17T09:30:00" (Some "Ana") None
                       {| self := with_cart [(9, 2)] (self started);
                          disk := disk started; shown := [] |})))
  = [ {| timestamp := "2024-05-17T09:30:00Z"; buyer := "Ana"; note := "";
         items := []; total := 0 |} ].
Proof. reflexivity. Qed.

(** ** The digest and the formatted total *)

Lemma hexdigit_lower (n : Z) : 0 <= n < 16 -> is_lower_hex (SHA256.hexdigit n) = true.
Proof.
  intros H.
  assert (T : forallb (fun i => is_lower_hex (SHA256.hexdigit (Z.of_nat i))) (seq 0 16)
              = true) by reflexivity.
  rewrite forallb_forall in T. rewrite <- (Z2Nat.id n) by lia.
  apply T, in_seq. lia.
Qed.

Lemma nibble_lower (w i : Z) : is_lower_hex (SHA256.nibble w i) = true.
Proof.
  unfold SHA256.nibble. apply hexdigit_lower.
  change 0xf with (Z.ones 4). rewrite Z.land_ones by lia.
  apply Z.mod_pos_bound. lia.
Qed.

Lemma forallb_string_app (f : ascii -> bool) (s t : string) :
  forallb f (list_ascii_of_string (s +:+ t))
  = forallb f (list_ascii_of_string s) && forallb f (list_ascii_of_string t).
Proof.
  induction s as [|c s IH]; [reflexivity|].
  change (String c s +:+ t) with (String c (s +:+ t)).
  cbn [list_ascii_of_string forallb]. rewrite IH. apply andb_assoc.
Qed.

Lemma hex32_lower (w : Z) :
  forallb is_lower_hex (list_ascii_of_string (SHA256.hex32 w)) = true.
Proof.
  unfold SHA256.hex32. cbn [list_ascii_of_string forallb].
  now rewrite !nibble_lower.
Qed.

(** X19. Whatever the password, [hash_password] returns 64 characters,
    each a digit or a lower-case letter from a to f. *)
Theorem hash_password_hex (pw : string) :
  String.length (hash_password pw) = 64%nat
  /\ forallb is_lower_hex (list_ascii_of_string (hash_password pw)) = true.
Proof.
  split; [apply hash_password_length|].
  unfold hash_password, SHA256.hexdigest.
  rewrite !forallb_string_app, !hex32_lower. reflexivity.
Qed.

Lemma list_ascii_app (s t : string) :
  list_ascii_of_string (s +:+ t) = list_ascii_of_string s ++ list_ascii_of_string t.
Proof.
  induction s as [|c s IH]; [reflexivity|].
  change (String c s +:+ t) with (String c (s +:+ t)).
  cbn [list_ascii_of_string]. now rewrite IH.
Qed.

Lemma string_of_list_app (a b : list ascii) :
  string_of_list_ascii (a ++ b) = string_of_list_ascii a +:+ string_of_list_ascii b.
Proof. induction a as [|c a IH]; [reflexivity|]. cbn. now rewrite IH. Qed.

Lemma filter_not_comma_rev (l : list ascii) :
  List.filter not_comma (rev l) = rev (List.filter not_comma l).
Proof.
  induction l as [|c l IH]; [reflexivity|].
  cbn [rev List.filter]. rewrite List.filter_app, IH. cbn [List.filter].
  destruct (not_comma c); [reflexivity | now rewrite app_nil_r].
Qed.

Lemma filter_all {A : Type} (f : A -> bool) (l : list A) :
  forallb f l = true -> List.filter f l = l.
Proof.
  induction l as [|x l IH]; [reflexivity|]. cbn. intros H.
  apply andb_prop in H as [-> H]. now rewrite IH.
Qed.

Lemma group3_four (a b c d : ascii) (rest : list ascii) :
  group3 (a :: b :: c :: d :: rest) = a :: b :: c :: ","%char :: group3 (d :: rest).
Proof. reflexivity. Qed.

(** Grouping only inserts commas. *)
Lemma group3_filter (n : nat) :
  forall l : list ascii,
    (length l <= n)%nat -> forallb not_comma l = true ->
    List.filter not_comma (group3 l) = l.
Proof.
  induction n as [|n IH]; intros l Hn Hl.
  - destruct l; [reflexivity | cbn in Hn; lia].
  - destruct l as [|a [|b [|c [|d rest]]]]; try (now apply filter_all).
    rewrite group3_four.
    cbn [forallb] in Hl.
    apply andb_prop in Hl as [Ha Hl]. apply andb_prop in Hl as [Hb Hl].
    apply andb_prop in Hl as [Hc Hl].
    cbn [List.filter]. rewrite Ha, Hb, Hc.
    change (not_comma ","%char) with false. cbv iota.
    rewrite (IH (d :: rest)); [reflexivity | cbn in Hn |- *; lia | exact Hl].
Qed.

Lemma uint_digits_not_comma (u : Decimal.uint) :
  forallb not_comma (list_ascii_of_string (NilEmpty.string_of_uint u)) = true.
Proof. induction u; cbn; auto. Qed.

Lemma decimal_not_comma (u : Decimal.uint) :
  forallb not_comma (list_ascii_of_string (NilZero.string_of_uint u)) = true.
Proof. destruct u; try apply uint_digits_not_comma. reflexivity. Qed.

(** X20. The number format of the totals only inserts commas: for every
    integer, [thousands] with its commas removed is the plain decimal
    numeral, sign included. *)
Theorem thousands_without_commas (n : Z) : without_commas (thousands n) = str_int n.
Proof.
  unfold without_commas, thousands, str_int. cbv zeta.
  set (digits := list_ascii_of_string (NilZero.string_of_uint (N.to_uint (Z.abs_N n)))).
  rewrite list_ascii_app, list_ascii_of_string_of_list_ascii, List.filter_app,
    filter_not_comma_rev.
  rewrite (group3_filter (length (rev digits)) (rev digits) (le_n _)).
  - rewrite rev_involutive, string_of_list_app. unfold digits.
    rewrite string_of_list_ascii_of_string.
    destruct (n <? 0); reflexivity.
  - rewrite forallb_forall. intros c Hc. apply in_rev in Hc.
    pose proof (decimal_not_comma (N.to_uint (Z.abs_N n))) as D.
    rewrite forallb_forall in D. now apply D.
Qed.

(** ** The category filter and the export *)

Lemma fold_reset_lookup (items : list MenuItem) (k : Z) :
  forall vars : gmap Z IntVar,
    fold_left (fun vars it => <[it_id it := int_text 0]> vars) items vars !! k =
    if has_id items k then Some (int_text 0) else vars !! k.
Proof.
  induction items as [|it items IH]; intros vars; [reflexivity|].
  cbn [fold_left]. rewrite IH, has_id_cons.
  destruct (has_id items k); [now rewrite orb_true_r|]. rewrite orb_false_r.
  destruct (Z.eqb_spec (it_id it) k) as [->|N].
  - apply lookup_insert_eq.
  - now apply lookup_insert_ne.
Qed.

Lemma has_id_filter (f : MenuItem -> bool) (menu : list MenuItem) (k : Z) :
  has_id (List.filter f menu) k = existsb (fun it => f it && (it_id it =? k)) menu.
Proof.
  induction menu as [|it menu IH]; [reflexivity|]. cbn [List.filter existsb].
  destruct (f it); [rewrite has_id_cons, IH | rewrite IH]; reflexivity.
Qed.

(** X21. Choosing a category sets to 0 the spinbox of every item that
    the list then shows (all of them for ["Semua"]) and leaves the
    variable of every other item id as it was, so a quantity typed for an
    item that is no longer listed is still there for
    [add_selected_to_cart]; nothing else changes. *)
Theorem refresh_menu_list_vars (selected_cat : string) (g : Gui) (k : Z) :
  item_qty_vars (refresh_menu_list selected_cat g) !! k =
    (if existsb (fun it => listed selected_cat it && (it_id it =? k))
                (menu_items (self (world g)))
     then Some (int_text 0) else item_qty_vars g !! k)
  /\ (forall it, listed "Semua" it = true)
  /\ world (refresh_menu_list selected_cat g) = world g
  /\ exports (refresh_menu_list selected_cat g) = exports g.
Proof.
  unfold refresh_menu_list. cbn [item_qty_vars world exports].
  rewrite fold_reset_lookup, has_id_filter.
  split; [reflexivity|]. split; [intros it; reflexivity|]. split; reflexivity.
Qed.

(** A quantity chosen under one category is added under another. *)
Example hidden_selection_is_added :
  cart (self (world (snd (add_selected_to_cart
                            (refresh_menu_list "Minuman" choosing)))))
  = [(1, 3); (4, 1); (2, 3)].
Proof. reflexivity. Qed.

(** X22. The export touches neither the memory nor the three documents,
    and no export file but the one named after [stamp]. It ends in one of
    three ways: it returns after a dialog naming the path, and the file
    holds the log that [orders.json] holds (not the log in memory); or the
    file could not be opened and nothing at all has changed; or it raises
    after the file was opened, and the file is left unparseable. *)
Theorem export_json_outcomes (APP_DIR stamp : string) (fault : write_fault) (g : Gui) :
  let path := os_path_join APP_DIR ("orders_export_" +:+ stamp +:+ ".json") in
  let r := _admin_export_json APP_DIR stamp fault g in
  self (world (snd r)) = self (world g)
  /\ disk (world (snd r)) = disk (world g)
  /\ item_qty_vars (snd r) = item_qty_vars g
  /\ (forall q, q <> path -> exports (snd r) !! q = exports g !! q)
  /\ ((fst r = Returned
       /\ fault = NoFault
       /\ (exists os, orders_json (disk (world g)) = Holds os
                      /\ exports (snd r) !! path = Some (Holds os))
       /\ shown (world (snd r)) =
          shown (world g) ++ [showinfo "Ekspor Selesai" ("File diekspor ke: " +:+ path)])
      \/ (fst r = Raised OSError /\ fault = OpenFails /\ snd r = g)
      \/ ((exists e, fst r = Raised e)
          /\ exports (snd r) !! path = Some Garbled
          /\ shown (world (snd r)) = shown (world g))).
Proof.
  cbv zeta. unfold _admin_export_json.
  set (path := os_path_join APP_DIR ("orders_export_" +:+ stamp +:+ ".json")).
  destruct fault, (orders_json (disk (world g))) as [| |os] eqn:O; unfold lift;
    cbn [fst snd world self disk shown show item_qty_vars exports with_world];
    (split; [reflexivity|]); (split; [reflexivity|]); (split; [reflexivity|]);
    (split; [intros q Hq; try reflexivity; now apply lookup_insert_ne|]);
    rewrite ?lookup_insert_eq;
    try (right; left; repeat split; reflexivity);
    try (right; right; split; [eexists; reflexivity | split; reflexivity]).
  left. split; [reflexivity|]. split; [reflexivity|]. split; [|reflexivity].
  exists os. split; reflexivity.
Qed.

(** ** A disk that works *)

Lemma place_order_saved io utcnow ask_buyer ask_note (w : World) :
  io ORDERS_FILE = NoFault ->
  exists w' : World,
    place_order io utcnow ask_buyer ask_note w = (Return tt, w')
    /\ menu_items (self w') = menu_items (self w)
    /\ config (self w') = config (self w)
    /\ menu_json (disk w') = menu_json (disk w)
    /\ config_json (disk w') = config_json (disk w)
    /\ (orders_json (disk w) = Holds (orders (self w)) ->
        orders_json (disk w') = Holds (orders (self w'))).
Proof.
  intros F. destruct (decide (cart (self w) = [])) as [C|N].
  - rewrite (place_order_empty_cart io utcnow ask_buyer ask_note w C).
    eexists. split; [reflexivity|]. cbn. auto.
  - destruct (truthy ask_buyer) eqn:T.
    + pose proof (place_order_accepted io utcnow ask_buyer ask_note w N T) as E.
      cbv zeta in E. rewrite F in E. rewrite E.
      eexists. split; [reflexivity|]. cbn. auto.
    + rewrite (place_order_no_buyer io utcnow ask_buyer ask_note w N T).
      eexists. split; [reflexivity|]. cbn. auto.
Qed.

Ltac reloaded Ho :=
  match goal with
  | H : orders_json _ = Holds _ |- _ =>
      rewrite Ho in H; injection H as <-; split; [auto | discriminate]
  | H : forall os, orders_json _ <> Holds os |- _ =>
      exfalso; exact (H _ Ho)
  end.

Lemma run_faultless (APP_DIR : string) (env : environment) (c : command) (g : Gui) :
  (forall p, io_of env p = NoFault) -> export_fault env = NoFault ->
  mirrors (world g) ->
  mirrors (world (snd (run APP_DIR env c g)))
  /\ forall e, fst (run APP_DIR env c g) <> Raised e.
Proof.
  intros Hio Hx (Hm & Ho & Hc). unfold mirrors.
  destruct c as [cat| | |utcnow b n|ask_pw| |stamp|yes|a cf]; simpl run.
  - split; [cbn; auto | discriminate].
  - split.
    + destruct (add_selected_to_cart_world g) as (c' & sh & -> & _). cbn. auto.
    + unfold add_selected_to_cart.
      destruct (add_loop _ _ _ _) as [[] [[c' v'] []]]; cbn; discriminate.
  - split; [rewrite lift_world; cbn; auto | discriminate].
  - destruct (place_order_saved (io_of env) utcnow b n (world g) (Hio ORDERS_FILE))
      as (w' & E & M1 & M2 & M3 & M4 & M5).
    unfold lift. rewrite E. cbn [fst snd world with_world].
    split; [|discriminate]. rewrite M1, M2, M3, M4. auto.
  - unfold lift. by_cases; [| |intros pw _ _; by_cases; intros]; cbn;
      try (split; [auto | discriminate]); reloaded Ho.
  - unfold lift. by_cases; intros; cbn; reloaded Ho.
  - unfold _admin_export_json. rewrite Hx, Ho. unfold lift. cbn.
    split; [auto | discriminate].
  - unfold lift, _admin_clear_orders.
    destruct yes; cbn [negb]; [|cbn; split; [auto | discriminate]].
    unfold bind, get_self, set_self, save_orders, json_dump, _admin_refresh, load_orders,
      get_disk, set_disk, show, json_load.
    rewrite (Hio ORDERS_FILE). cbn. split; [auto | discriminate].
  - unfold lift. destruct (truthy a) eqn:T.
    + destruct (decide (a = cf)) as [E|N].
      * destruct a as [p|]; [|discriminate T]. subst cf. apply truthy_Some in T.
        pose proof (change_password_agrees (io_of env) p (world g) T) as A.
        cbv zeta in A. rewrite (Hio CONFIG_FILE) in A. rewrite A. cbn.
        split; [auto | discriminate].
      * rewrite change_password_differs by assumption. cbn.
        split; [auto | discriminate].
    + rewrite change_password_empty by assumption. cbn. split; [auto | discriminate].
Qed.

(** X23. As long as no write fails, the running application never raises
    an I/O or JSON error and never drifts from the disk: started from a
    state whose [menu_items], [orders] and [config] are what the three
    documents hold, any sequence of callbacks ends in such a state, and
    none of them raises anything but, possibly, [TclError]. *)
Theorem mainloop_mirrors (APP_DIR : string) (events : list (environment * command))
    (g : Gui) :
  mirrors (world g) ->
  Forall (fun ev => (forall p, io_of (fst ev) p = NoFault)
                    /\ export_fault (fst ev) = NoFault) events ->
  mirrors (world (mainloop APP_DIR events g))
  /\ Forall (fun o => forall e, o <> Raised e) (outcomes APP_DIR events g).
Proof.
  intros M F. revert g M.
  induction F as [|[env c] events [Hio Hx] _ IH]; intros g M.
  - split; [exact M | constructor].
  - destruct (run_faultless APP_DIR env c g Hio Hx M) as [M' N].
    destruct (IH _ M') as [IH1 IH2]. simpl. split; [exact IH1|].
    constructor; [exact N | exact IH2].
Qed.

Lemma mainloop_mirrors_witness :
  mirrors (world (mainloop "/home/kelas"
                    [ (faultless, Tambah_ke_Keranjang);
                      (faultless, Pesan_Sekarang "2024-05-17T09:30:00" (Some "Ana") None);
                      (faultless, Admin (Some "admin123"));
                      (faultless, Hapus_Semua_Pesanan true) ]
                    choosing))
  /\ Forall (fun o => forall e, o <> Raised e)
            (outcomes "/home/kelas"
               [ (faultless, Tambah_ke_Keranjang);
                 (faultless, Pesan_Sekarang "2024-05-17T09:30:00" (Some "Ana") None);
                 (faultless, Admin (Some "admin123"));
                 (faultless, Hapus_Semua_Pesanan true) ]
               choosing).
Proof.
  apply (mainloop_mirrors "/home/kelas"
           [ (faultless, Tambah_ke_Keranjang);
             (faultless, Pesan_Sekarang "2024-05-17T09:30:00" (Some "Ana") None);
             (faultless, Admin (Some "admin123"));
             (faultless, Hapus_Semua_Pesanan true) ]
           choosing).
  - repeat split.
  - repeat constructor.
Defined.

(** That session, step by step. *)
Example session_sale_and_clear :
  let g := mainloop "/home/kelas"
             [ (faultless, Tambah_ke_Keranjang);
               (faultless, Pesan_Sekarang "2024-05-17T09:30:00" (Some "Ana") None);
               (faultless, Admin (Some "admin123"));
               (faultless, Hapus_Semua_Pesanan true) ]
             choosing in
  orders (self (world g)) = [] /\ cart (self (world g)) = []
  /\ orders_json (disk (world g)) = Holds []
  /\ shown (world g) =
     [ showinfo "Sukses" "Pesanan diterima! Total Rp 71,000";
       Toplevel "Panel Admin - Daftar Pesanan";
       showinfo "Sukses" "Daftar pesanan diperbarui.";
       showinfo "Sukses" "Semua pesanan telah dihapus." ].
Proof. vm_compute. repeat split. Qed.
